(** * update_abuseipdb_asns.py: a shallow embedding and its properties

    The script keeps a Cloudflare WAF rules file in step with a curated list
    of hostile ASNs.  It has four parts, all modelled below from the source:

    - [get_known_bad_asns]        (lines 16-75)   the static catalogue;
    - [fetch_abuseipdb_asns]      (lines 77-156)  the AbuseIPDB query with
                                                  its fall-backs;
    - [update_rules_yaml]         (lines 158-178) the rewrite of rules.yaml;
    - [get_zone_rulesets], [delete_ruleset], [cleanup_existing_rulesets]
                                  (lines 180-250) the Cloudflare clean-up.

    Python values that reach the script from outside (decoded JSON bodies,
    the loaded YAML document) are values of [pyval]; the operations the
    script applies to them raise the exception Python raises when the value
    has the wrong shape.  Side effects (printing, HTTP requests, the rules
    file) live in the monad [M]. *)

From Stdlib Require Import ZArith Ascii String List Lia.
From stdpp Require Import base option list gmap strings pretty fin_maps.

Local Open Scope string_scope.
Local Open Scope Z_scope.
Local Open Scope list_scope.

Set Warnings "-register-all".

(** ** Python values *)

(** The values [json.loads] and [yaml.safe_load] build.  Numbers are the
    integers (floating point is left out), a [str] is the string of its code
    points, each below 256, and the keys of a [dict] are strings, as in JSON.
    A [dict] is a finite map: the script never depends on the order of the
    keys of a dictionary it receives. *)
Inductive pyval : Type :=
| PNone
| PBool (b : bool)
| PInt (n : Z)
| PStr (s : string)
| PList (l : list pyval)
| PDict (d : gmap string pyval).

(** The exceptions that occur, all of them instances of [Exception].
    [RequestException] stands for the whole class
    [requests.exceptions.RequestException] (connection errors, timeouts,
    ...); [OtherError] is any exception outside the named ones. *)
Inductive exn : Type :=
| RequestException
| KeyError
| TypeError
| AttributeError
| FileNotFoundError
| YAMLError
| OtherError.

(** The value of an expression: the exception it raises, or its result. *)
Definition result (A : Type) : Type := (exn + A)%type.

(** ** Strings *)

(** [needle in hay] for two [str]: [needle] occurs as a contiguous block. *)
Fixpoint contains (needle hay : string) : bool :=
  String.prefix needle hay ||
  match hay with
  | EmptyString => false
  | String _ rest => contains needle rest
  end.

(** [c.lower()] on one code point below 256: the capital letters A-Z and the
    Latin-1 capitals U+00C0-U+00DE (but not the sign U+00D7) move up by 32.
    (Above 255 only U+0130 and U+212A are lowered to letters below 128, to
    "i" and "k", which occur in none of the keywords of the clean-up.) *)
Definition lower_char (c : ascii) : ascii :=
  let n := N_of_ascii c in
  if ((65 <=? n) && (n <=? 90) ||
      (192 <=? n) && (n <=? 222) && negb (n =? 215))%N
  then ascii_of_N (n + 32) else c.

(** [s.lower()] *)
Fixpoint lower (s : string) : string :=
  match s with
  | EmptyString => EmptyString
  | String c rest => String (lower_char c) (lower rest)
  end.

(** [list(s)]: the one-character strings of [s]. *)
Fixpoint chars (s : string) : list string :=
  match s with
  | EmptyString => []
  | String c rest => String c EmptyString :: chars rest
  end.

(** [str(n)] for an [int]. *)
Definition str_of_int (n : Z) : string := pretty n.

(** [sep.join(l)] *)
Definition str_join (sep : string) (l : list string) : string :=
  String.concat sep l.

(** ** Operations of Python on [pyval] *)

(** [v[key]] with a string key.  Only a [dict] can be subscripted by a
    string; a missing key is a [KeyError], anything else a [TypeError]. *)
Definition py_getitem (v : pyval) (key : string) : result pyval :=
  match v with
  | PDict d => match d !! key with
               | Some x => inr x
               | None => inl KeyError
               end
  | _ => inl TypeError
  end.

(** [v.get(key, dflt)]: only a [dict] has the method. *)
Definition py_get (v : pyval) (key : string) (dflt : pyval) : result pyval :=
  match v with
  | PDict d => inr (default dflt (d !! key))
  | _ => inl AttributeError
  end.

(** [v == s] for a string literal [s]. *)
Definition py_eq_str (v : pyval) (s : string) : bool :=
  match v with
  | PStr t => String.eqb t s
  | _ => false
  end.

(** [needle in v] for a string literal [needle]: substring of a [str],
    element of a [list], key of a [dict]. *)
Definition py_contains (needle : string) (v : pyval) : result bool :=
  match v with
  | PStr s => inr (contains needle s)
  | PList l => inr (existsb (fun x => py_eq_str x needle) l)
  | PDict d => inr (bool_decide (is_Some (d !! needle)))
  | _ => inl TypeError
  end.

(** [len(v)] *)
Definition py_len (v : pyval) : result nat :=
  match v with
  | PStr s => inr (String.length s)
  | PList l => inr (length l)
  | PDict d => inr (size d)
  | _ => inl TypeError
  end.

(** The elements [for x in v] runs through: the items of a [list], the keys
    of a [dict], the characters of a [str].  Every loop of the script over
    such a value applies [.get] or a string subscript to the elements, which
    raises on the first key or character, so the order of the keys does not
    show. *)
Definition py_iter (v : pyval) : result (list pyval) :=
  match v with
  | PList l => inr l
  | PDict d => inr (PStr <$> (map_to_list d).*1)
  | PStr s => inr (PStr <$> chars s)
  | _ => inl TypeError
  end.

(** [v.lower()]: only a [str] has the method. *)
Definition py_lower (v : pyval) : result string :=
  match v with
  | PStr s => inr (lower s)
  | _ => inl AttributeError
  end.

(** Keys of a dictionary built by the script: a [list] or a [dict] cannot be
    hashed, and [True], [False] are the keys [1], [0]. *)
Definition py_hashable (v : pyval) : bool :=
  match v with
  | PList _ | PDict _ => false
  | _ => true
  end.

Definition py_key_eq (a b : pyval) : bool :=
  match a, b with
  | PNone, PNone => true
  | PStr s, PStr t => String.eqb s t
  | PBool x, PBool y => Bool.eqb x y
  | PInt x, PInt y => x =? y
  | PBool x, PInt y | PInt y, PBool x => (if x then 1 else 0) =? y
  | _, _ => false
  end.

(** Truth value of an environment variable read by [os.getenv]: [None] and
    the empty string are false. *)
Definition truthy (v : option string) : bool :=
  match v with
  | Some (String _ _) => true
  | _ => false
  end.

(** ** The outside world *)

(** The HTTP requests of the script.  The credentials travel in the headers
    and are not part of the address. *)
Inductive request : Type :=
| GetBlacklist
    (* GET https://api.abuseipdb.com/api/v2/blacklist?confidenceMinimum=90&limit=100 *)
| GetRulesets (zone_id : string)
    (* GET https://api.cloudflare.com/client/v4/zones/{zone_id}/rulesets *)
| DeleteRuleset (zone_id : string) (ruleset_id : pyval).
    (* DELETE https://api.cloudflare.com/client/v4/zones/{zone_id}/rulesets/{ruleset_id} *)

(** What the script reads of a response: [status_code], [text] and the value
    of [json()], which raises on a body that is not JSON. *)
Record response : Type := mkResponse {
  status_code : Z;
  text : string;
  json : result pyval
}.

(** A call of [requests.get] or [requests.delete] returns a response or
    raises (a [RequestException] on a transport failure). *)
Inductive outcome : Type :=
| Responded (r : response)
| Failed (e : exn).

(** The network answers the [n]-th request of a run, whatever it is. *)
Definition world : Type := nat -> request -> outcome.

(** rules.yaml on disk, as the read of lines 159-160 finds it: absent; text
    that is not YAML; a file whose opening or decoding raises [e] (no
    permission, bytes that are not UTF-8, ...); or the value
    [yaml.safe_load] gives.  [yaml.dump] followed by [yaml.safe_load] is the
    identity on [pyval]. *)
Inductive file_state : Type :=
| NoFile
| BadYaml
| Unreadable (e : exn)
| Yaml (v : pyval).

(** The lines the script prints, one constructor per [print], with the
    values formatted into the line. *)
Inductive msg : Type :=
| MNoKey                               (* line 83 *)
| MAttempt                             (* line 92 *)
| MCallOk                              (* line 98 *)
| MReceived (n : nat)                  (* line 102 *)
| MTopCountries                        (* line 111 *)
| MCountry (country : pyval) (count : nat)   (* line 114 *)
| MCombining                           (* line 117 *)
| MHighRisk                            (* line 123 *)
| MUsing (n : nat)                     (* line 126 *)
| MEmptyData                           (* line 129 *)
| MRateLimited                         (* line 133 *)
| MFallbackProtect                     (* line 134 *)
| MAuthFailed                          (* line 138 *)
| MFallback                            (* lines 139, 145, 150, 155 *)
| MApiError (status : Z)               (* line 143 *)
| MResponseText (t : string)           (* line 144 *)
| MNetworkError (e : exn)              (* line 149 *)
| MUnexpected (e : exn)                (* line 154 *)
| MAdded (n : nat)                     (* line 173 *)
| MNoAsnData                           (* line 175 *)
| MNoToken                             (* line 183 *)
| MErrFetching (zone_id : string) (status : Z)   (* line 195 *)
| MDeleted (ruleset_id : pyval)        (* line 211 *)
| MDeleteFailed (ruleset_id : pyval) (status : Z)   (* line 214 *)
| MSkipCleanup                         (* line 220 *)
| MCleaning                            (* line 223 *)
| MZone (zone_name zone_id : string)   (* line 226 *)
| MNoCustom                            (* line 237 *)
| MFound (n : nat)                     (* line 240 *)
| MRuleset (name ruleset_id : pyval)   (* line 243 *)
| MDeleting (name : pyval)             (* line 247 *)
| MSkipping (name : pyval)             (* line 250 *)
| MFetching                            (* line 256 *)
| MFetched (n : nat)                   (* line 258 *)
| MUpdated.                            (* line 260 *)

(** What a run does, in order: lines printed and requests made, each request
    with the answer it got. *)
Inductive event : Type :=
| Print (m : msg)
| Http (req : request) (out : outcome).

(** ** The monad of the script *)

(** The state a run changes: the number of requests made so far and the
    rules file. *)
Record state : Type := mkState {
  calls : nat;
  rules_file : file_state
}.

(** A computation runs from a state to an exception or a value, a new state
    and the events it caused. *)
Definition M (A : Type) : Type := state -> result A * state * list event.

Definition ret {A} (a : A) : M A := fun s => (inr a, s, []).

Definition bind {A B} (m : M A) (k : A -> M B) : M B := fun s =>
  match m s with
  | (inl e, s1, t1) => (inl e, s1, t1)
  | (inr a, s1, t1) =>
      match k a s1 with
      | (r, s2, t2) => (r, s2, t1 ++ t2)
      end
  end.

#[export] Instance M_ret : MRet M := @ret.
#[export] Instance M_bind : MBind M := fun A B k m => bind m k.

(** An expression that may raise, evaluated without other effects. *)
Definition lift {A} (r : result A) : M A := fun s => (r, s, []).

(** [print(...)] *)
Definition print (m : msg) : M unit := fun s => (inr tt, s, [Print m]).

(** [try: body / except ... as e: handler e] with handlers that catch every
    [Exception]. *)
Definition try_except {A} (body : M A) (handler : exn -> M A) : M A := fun s =>
  match body s with
  | (inl e, s1, t1) =>
      match handler e s1 with
      | (r, s2, t2) => (r, s2, t1 ++ t2)
      end
  | (inr a, s1, t1) => (inr a, s1, t1)
  end.

(** [for x in l: body x] *)
Fixpoint for_each {A} (l : list A) (body : A -> M unit) : M unit :=
  match l with
  | [] => mret tt
  | x :: rest => body x ;; for_each rest body
  end.

(** [with open(OUTPUT_FILE, 'r') as f: data = yaml.safe_load(f)] *)
Definition load_yaml : M pyval := fun s =>
  match rules_file s with
  | NoFile => (inl FileNotFoundError, s, [])
  | BadYaml => (inl YAMLError, s, [])
  | Unreadable e => (inl e, s, [])
  | Yaml v => (inr v, s, [])
  end.

(** [with open(OUTPUT_FILE, 'w') as f: yaml.dump(data, f)].  The file is
    taken to be writable: a run in which the opening for writing or the dump
    raises is outside the model, and no statement below speaks of what such
    a run leaves in the file. *)
Definition dump_yaml (data : pyval) : M unit := fun s =>
  (inr tt, mkState (calls s) (Yaml data), []).

(** [[x for x in l if test x]], where the test may raise. *)
Fixpoint filter_each {A} (l : list A) (test : A -> M bool) : M (list A) :=
  match l with
  | [] => mret []
  | x :: rest =>
      keep ← test x;
      kept ← filter_each rest test;
      mret (if keep : bool then x :: kept else kept)
  end.

(** [for x in l: acc = body acc x] *)
Fixpoint fold_each {A S} (l : list A) (acc : S) (body : S -> A -> M S) : M S :=
  match l with
  | [] => mret acc
  | x :: rest => acc' ← body acc x; fold_each rest acc' body
  end.

(** ** Module-level constants (lines 7-14) *)

Definition MAX_ASNS : nat := 50.

(** [ZONE_IDS.items()], in the order the dictionary is written. *)
Definition ZONE_IDS : list (string * string) :=
  [ ("homieyeng.top", "1791cd65881eb3caf7d1a3cb315342a5");
    ("homieyang.dpdns.org", "42e0fad5233017cf842727c41ce3ef89") ].

(** ** The static catalogue (lines 16-75) *)

Definition get_known_bad_asns : list Z :=
  [ 197695; 49505; 201776; 202425; 49392; 44812; 202422;
    49981; 60068; 44901; 51167; 200000;
    208091; 202448; 63949; 16276; 24940;
    45090; 37963;
    20473; 14061;
    9009; 35913;
    31034; 8100; 46844;
    40676; 53667;
    209605; 212238;
    29802;
    48693 ].

(** ** The country statistics of the fetcher (lines 106-112) *)

(** [country_stats[country] = country_stats.get(country, 0) + 1] on a
    dictionary kept in insertion order. *)
Fixpoint bump (country : pyval) (stats : list (pyval * nat))
  : list (pyval * nat) :=
  match stats with
  | [] => [(country, 1%nat)]
  | (k, n) :: rest =>
      if py_key_eq k country then (k, S n) :: rest
      else (k, n) :: bump country rest
  end.

Definition count_country (stats : list (pyval * nat)) (country : pyval)
  : result (list (pyval * nat)) :=
  if py_hashable country then inr (bump country stats) else inl TypeError.

(** [sorted(items, key=lambda x: x[1], reverse=True)]: a stable sort, larger
    counts first, equal counts in their original order. *)
Fixpoint insert_desc (x : pyval * nat) (l : list (pyval * nat))
  : list (pyval * nat) :=
  match l with
  | [] => [x]
  | y :: rest =>
      if (y.2 <? x.2)%nat then x :: y :: rest else y :: insert_desc x rest
  end.

Definition sorted_desc (l : list (pyval * nat)) : list (pyval * nat) :=
  fold_left (fun acc x => insert_desc x acc) l [].

Definition high_risk_countries : list string := ["RU"; "CN"; "KP"; "IR"].

(** ** The rule written by the updater (lines 167-171) *)

Definition rule_expression (asns : list Z) : string :=
  "(ip.geoip.asnum in {" +:+ str_join " " (str_of_int <$> asns) +:+ "})".

Definition rule_block (asns : list Z) : pyval :=
  PDict (<["name" := PStr "Block Known Bad ASNs (AbuseIPDB)"]>
        (<["action" := PStr "block"]>
        (<["expression" := PStr (rule_expression asns)]> ∅))).

(** [d[key] = x] *)
Definition py_setitem (v : pyval) (key : string) (x : pyval) : result pyval :=
  match v with
  | PDict d => inr (PDict (<[key := x]> d))
  | _ => inl TypeError
  end.

(** [v.append(x)]: only a [list] has the method. *)
Definition py_append (v : pyval) (x : pyval) : result pyval :=
  match v with
  | PList l => inr (PList (l ++ [x]))
  | _ => inl AttributeError
  end.

(** The test of the comprehension on line 163:
    ["ASN" not in rule["name"]]. *)
Definition not_asn_rule (rule : pyval) : M bool :=
  name ← lift (py_getitem rule "name");
  is_asn ← lift (py_contains "ASN" name);
  mret (negb is_asn).

(** ** The keyword heuristic of the clean-up (line 246) *)

Definition managed_keywords : list string := ["terraform"; "waf"; "managed"].

(** The test of the comprehension on lines 231-234. *)
Definition is_custom_zone_ruleset (rs : pyval) : M bool :=
  phase ← lift (py_get rs "phase" PNone);
  if py_eq_str phase "http_request_firewall_custom" then
    kind ← lift (py_get rs "kind" PNone);
    mret (py_eq_str kind "zone")
  else mret false.

Section Script.

(** The environment of a run (lines 5-6) and the network it talks to. *)
Variable ABUSEIPDB_API_KEY : option string.
Variable CLOUDFLARE_API_TOKEN : option string.
Variable net : world.

(** [requests.get(url, headers=headers)], [requests.delete(...)] *)
Definition http (req : request) : M response := fun s =>
  let out := net (calls s) req in
  (match out with
   | Responded r => inr r
   | Failed e => inl e
   end,
   mkState (S (calls s)) (rules_file s),
   [Http req out]).

(** *** The fetcher (lines 77-156) *)

(** Lines 92-146, the body of the [try]. *)
Definition fetch_body : M (list Z) :=
  print MAttempt ;;
  response ← http GetBlacklist;
  if status_code response =? 200 then
    print MCallOk ;;
    data ← lift (json response);
    has_data ← lift (py_contains "data" data);
    nonempty ← (if has_data : bool then
                  entries ← lift (py_getitem data "data");
                  n ← lift (py_len entries);
                  mret (0 <? n)%nat
                else mret false);
    if nonempty : bool then
      entries ← lift (py_getitem data "data");
      n ← lift (py_len entries);
      print (MReceived n) ;;
      items ← lift (py_iter entries);
      country_stats ← fold_each items [] (fun stats entry =>
        country ← lift (py_get entry "countryCode" (PStr "Unknown"));
        lift (count_country stats country));
      print MTopCountries ;;
      let sorted_countries := take 10 (sorted_desc country_stats) in
      for_each sorted_countries (fun c => print (MCountry c.1 c.2)) ;;
      print MCombining ;;
      let static_asns := get_known_bad_asns in
      (if existsb (fun country =>
                     existsb (fun c => py_eq_str c.1 country)
                             (take 5 sorted_countries))
                  high_risk_countries
       then print MHighRisk else mret tt) ;;
      let selected_asns := take MAX_ASNS static_asns in
      print (MUsing (length selected_asns)) ;;
      mret selected_asns
    else
      print MEmptyData ;;
      mret (take MAX_ASNS get_known_bad_asns)
  else if status_code response =? 429 then
    print MRateLimited ;;
    print MFallbackProtect ;;
    mret (take MAX_ASNS get_known_bad_asns)
  else if status_code response =? 401 then
    print MAuthFailed ;;
    print MFallback ;;
    mret (take MAX_ASNS get_known_bad_asns)
  else
    print (MApiError (status_code response)) ;;
    print (MResponseText (substring 0 200 (text response))) ;;
    print MFallback ;;
    mret (take MAX_ASNS get_known_bad_asns).

(** Lines 148-156, the two [except] clauses. *)
Definition fetch_handler (e : exn) : M (list Z) :=
  match e with
  | RequestException =>
      print (MNetworkError e) ;;
      print MFallback ;;
      mret (take MAX_ASNS get_known_bad_asns)
  | _ =>
      print (MUnexpected e) ;;
      print MFallback ;;
      mret (take MAX_ASNS get_known_bad_asns)
  end.

Definition fetch_abuseipdb_asns : M (list Z) :=
  if negb (truthy ABUSEIPDB_API_KEY) then
    print MNoKey ;;
    mret (take MAX_ASNS get_known_bad_asns)
  else
    try_except fetch_body fetch_handler.

(** *** The rules file updater (lines 158-178) *)

Definition update_rules_yaml (asns : list Z) : M unit :=
  data ← load_yaml;
  old_rules ← lift (py_getitem data "rules");
  rules ← lift (py_iter old_rules);
  kept ← filter_each rules not_asn_rule;
  data ← lift (py_setitem data "rules" (PList kept));
  data ← match asns with
         | _ :: _ =>
             (* [data["rules"].append(rule_block)] changes the list held by
                [data] *)
             rules ← lift (py_getitem data "rules");
             rules ← lift (py_append rules (rule_block asns));
             data ← lift (py_setitem data "rules" rules);
             print (MAdded (length asns)) ;;
             mret data
         | [] =>
             print MNoAsnData ;;
             mret data
         end;
  dump_yaml data.

(** *** The clean-up client (lines 180-250) *)

Definition get_zone_rulesets (zone_id : string) : M pyval :=
  if negb (truthy CLOUDFLARE_API_TOKEN) then
    print MNoToken ;;
    mret (PList [])
  else
    response ← http (GetRulesets zone_id);
    if negb (status_code response =? 200) then
      print (MErrFetching zone_id (status_code response)) ;;
      mret (PList [])
    else
      body ← lift (json response);
      lift (py_get body "result" (PList [])).

Definition delete_ruleset (zone_id : string) (ruleset_id : pyval) : M bool :=
  response ← http (DeleteRuleset zone_id ruleset_id);
  if (status_code response =? 200) || (status_code response =? 204) then
    print (MDeleted ruleset_id) ;;
    mret true
  else
    print (MDeleteFailed ruleset_id (status_code response)) ;;
    mret false.

(** Lines 243-250, the body of the inner loop. *)
Definition cleanup_ruleset (zone_id : string) (ruleset : pyval) : M unit :=
  name ← lift (py_getitem ruleset "name");
  ruleset_id ← lift (py_getitem ruleset "id");
  print (MRuleset name ruleset_id) ;;
  lowered ← lift (py_lower name);
  if existsb (fun keyword => contains keyword lowered) managed_keywords then
    print (MDeleting name) ;;
    delete_ruleset zone_id ruleset_id ;;
    mret tt
  else
    print (MSkipping name).

(** Lines 226-250, the body of the loop over the zones. *)
Definition cleanup_zone (zone : string * string) : M unit :=
  let zone_name := zone.1 in
  let zone_id := zone.2 in
  print (MZone zone_name zone_id) ;;
  rulesets ← get_zone_rulesets zone_id;
  listed ← lift (py_iter rulesets);
  custom_rulesets ← filter_each listed is_custom_zone_ruleset;
  match custom_rulesets with
  | [] => print MNoCustom
  | _ :: _ =>
      print (MFound (length custom_rulesets)) ;;
      for_each custom_rulesets (cleanup_ruleset zone_id)
  end.

Definition cleanup_existing_rulesets : M unit :=
  if negb (truthy CLOUDFLARE_API_TOKEN) then
    print MSkipCleanup
  else
    print MCleaning ;;
    for_each ZONE_IDS cleanup_zone.

(** *** The script (lines 252-260) *)

Definition main : M unit :=
  cleanup_existing_rulesets ;;
  print MFetching ;;
  asns ← fetch_abuseipdb_asns;
  print (MFetched (length asns)) ;;
  update_rules_yaml asns ;;
  print MUpdated.

End Script.

(** ** Observations of a run *)

(** The three components of a run. *)
Definition value_of {A} (run : result A * state * list event) : result A :=
  run.1.1.
Definition state_of {A} (run : result A * state * list event) : state :=
  run.1.2.
Definition trace_of {A} (run : result A * state * list event) : list event :=
  run.2.

(** [only m P]: whenever [m] returns, its value satisfies [P]. *)
Definition only {A} (m : M A) (P : A -> Prop) : Prop :=
  forall s a s' t, m s = (inr a, s', t) -> P a.


(** The requests of a trace, in order. *)
Definition requests (t : list event) : list request :=
  omap (fun ev => match ev with
                  | Http req _ => Some req
                  | Print _ => None
                  end) t.

(** ** Sample inputs *)

(** A network that gives the same answer to every request. *)
Definition always (out : outcome) : world := fun _ _ => out.

(** A response with a status and a JSON body. *)
Definition json_response (status : Z) (body : pyval) : response :=
  mkResponse status EmptyString (inr body).

(** A response with a status and a body that is not JSON. *)
Definition plain_response (status : Z) (body : string) : response :=
  mkResponse status body (inl OtherError).

(** The state before a run that has no rules file. *)
Definition fresh : state := mkState 0 NoFile.

(** A JSON body whose [data] array is empty, and one with two entries. *)
Definition empty_feed : pyval := PDict {["data" := PList []]}.

Definition busy_feed : pyval :=
  PDict {["data" := PList [PDict {["countryCode" := PStr "RU"]};
                           PDict {["countryCode" := PStr "DE"]}]]}.

(** ** The comprehensions without the monad *)

(** [[x for x in l if f x]] as an expression: the first test that raises
    ends the evaluation. *)
Fixpoint filter_result {A} (f : A -> result bool) (l : list A)
  : result (list A) :=
  match l with
  | [] => inr []
  | x :: rest =>
      match f x with
      | inl e => inl e
      | inr keep =>
          match filter_result f rest with
          | inl e => inl e
          | inr kept => inr (if keep : bool then x :: kept else kept)
          end
      end
  end.

(** ["ASN" in rule["name"]], the test behind line 163. *)
Definition asn_test (rule : pyval) : result bool :=
  match py_getitem rule "name" with
  | inl e => inl e
  | inr name => py_contains "ASN" name
  end.

(** ["ASN" not in rule["name"]] *)
Definition keep_test (rule : pyval) : result bool :=
  match asn_test rule with
  | inl e => inl e
  | inr b => inr (negb b)
  end.

(** A rule is an ASN rule when the script's test finds "ASN" in its name. *)
Definition asn_named (rule : pyval) : bool :=
  match asn_test rule with
  | inr b => b
  | inl _ => false
  end.

(** The rules [update_rules_yaml] adds for a list of ASNs: one for a list
    that is not empty, none otherwise. *)
Definition appended_rules (asns : list Z) : list pyval :=
  match asns with
  | [] => []
  | _ :: _ => [rule_block asns]
  end.

(** The line [update_rules_yaml] prints. *)
Definition update_line (asns : list Z) : msg :=
  match asns with
  | [] => MNoAsnData
  | _ :: _ => MAdded (length asns)
  end.

(** The rule sequence of a rules file. *)
Definition rules_of (f : file_state) : option (list pyval) :=
  match f with
  | Yaml (PDict d) =>
      match d !! "rules" with
      | Some (PList rules) => Some rules
      | _ => None
      end
  | _ => None
  end.

(** The top-level entry of a rules file under a key. *)
Definition top_level (f : file_state) (key : string) : option pyval :=
  match f with
  | Yaml (PDict d) => d !! key
  | _ => None
  end.

(** A rules file with a hand-written rule, two stale ASN rules and a
    top-level key next to [rules]. *)
Definition sample_rule (name action expression : string) : pyval :=
  PDict {["name" := PStr name; "action" := PStr action;
          "expression" := PStr expression]}.

Definition sample_document : pyval :=
  PDict {["version" := PInt 2;
          "rules" := PList
            [ sample_rule "Block ASN list 1" "block" "(ip.geoip.asnum in {1})";
              sample_rule "Challenge bots" "managed_challenge" "(cf.client.bot)";
              sample_rule "Old ASNs" "block" "(ip.geoip.asnum in {2 3})" ]]}.

Definition sample_state : state := mkState 0 (Yaml sample_document).

(** ** The clean-up, as seen from outside *)

(** The DELETE requests of a trace: zone and ruleset id, in order. *)
Definition deletes (t : list event) : list (string * pyval) :=
  omap (fun ev => match ev with
                  | Http (DeleteRuleset zone_id ruleset_id) _ =>
                      Some (zone_id, ruleset_id)
                  | _ => None
                  end) t.

(** The listings of a trace: zone and the answer to the GET, in order. *)
Definition listings (t : list event) : list (string * outcome) :=
  omap (fun ev => match ev with
                  | Http (GetRulesets zone_id) out => Some (zone_id, out)
                  | _ => None
                  end) t.

(** What [get_zone_rulesets] makes of the answer to its request. *)
Definition zone_listing (out : outcome) : result pyval :=
  match out with
  | Failed e => inl e
  | Responded r =>
      if negb (status_code r =? 200) then inr (PList [])
      else match json r with
           | inl e => inl e
           | inr body => py_get body "result" (PList [])
           end
  end.

(** The rulesets of a zone as the clean-up sees them: the entries of the
    [result] of a 200 answer, and none when the listing gives nothing to
    run through. *)
Definition listed_rulesets (out : outcome) : list pyval :=
  match zone_listing out with
  | inr rulesets =>
      match py_iter rulesets with
      | inr listed => listed
      | inl _ => []
      end
  | inl _ => []
  end.

(** The test of lines 231-234 as an expression. *)
Definition custom_test (rs : pyval) : result bool :=
  match py_get rs "phase" PNone with
  | inl e => inl e
  | inr phase =>
      if py_eq_str phase "http_request_firewall_custom" then
        match py_get rs "kind" PNone with
        | inl e => inl e
        | inr kind => inr (py_eq_str kind "zone")
        end
      else inr false
  end.

(** The test of line 246 on a ruleset: its name, in lower case, contains a
    keyword. *)
Definition keyword_named (rs : pyval) : bool :=
  match py_getitem rs "name" with
  | inr name =>
      match py_lower name with
      | inr lowered =>
          existsb (fun keyword => contains keyword lowered) managed_keywords
      | inl _ => false
      end
  | inl _ => false
  end.

(** A field of a ruleset holds a given string. *)
Definition field_is (d : gmap string pyval) (key value : string) : bool :=
  match d !! key with
  | Some (PStr s) => String.eqb s value
  | _ => false
  end.

(** The rulesets the clean-up is meant to delete: phase
    "http_request_firewall_custom", kind "zone", and a name that contains,
    whatever the case of its letters, "terraform", "waf" or "managed". *)
Definition targeted (rs : pyval) : bool :=
  match rs with
  | PDict d =>
      field_is d "phase" "http_request_firewall_custom" &&
      field_is d "kind" "zone" &&
      match d !! "name" with
      | Some (PStr name) =>
          existsb (fun keyword => contains keyword (lower name))
                  ["terraform"; "waf"; "managed"]
      | _ => false
      end
  | _ => false
  end.

(** [ruleset['id']] *)
Definition ruleset_id (rs : pyval) : pyval :=
  match rs with
  | PDict d => default PNone (d !! "id")
  | _ => PNone
  end.

(** The DELETE requests owed to the listings of a run: for each listing in
    turn, one per targeted ruleset, in the order of the listing. *)
Definition expected_deletes (ls : list (string * outcome))
  : list (string * pyval) :=
  flat_map (fun l => map (fun rs => (l.1, ruleset_id rs))
                         (List.filter targeted (listed_rulesets l.2))) ls.

(** A ruleset as Cloudflare lists it. *)
Definition sample_ruleset (id name phase kind : string) : pyval :=
  PDict {["id" := PStr id; "name" := PStr name;
          "phase" := PStr phase; "kind" := PStr kind]}.

(** A network on which the first zone lists two custom rulesets, the second
    zone lists none, and every DELETE is answered 204. *)
Definition sample_net : world := fun _ req =>
  match req with
  | GetRulesets zone_id =>
      if String.eqb zone_id "1791cd65881eb3caf7d1a3cb315342a5" then
        Responded (json_response 200 (PDict {["result" := PList
          [ sample_ruleset "a1" "Terraform Managed WAF"
                           "http_request_firewall_custom" "zone";
            sample_ruleset "b2" "Custom Rule"
                           "http_request_firewall_custom" "zone" ]]}))
      else Responded (json_response 200 (PDict {["result" := PList []]}))
  | DeleteRuleset _ _ => Responded (plain_response 204 EmptyString)
  | GetBlacklist => Responded (plain_response 429 EmptyString)
  end.


(** A network on which the listing of the first zone is refused and the
    listing of the second zone raises. *)
Definition second_zone_down_net : world := fun _ req =>
  match req with
  | GetRulesets zone_id =>
      if String.eqb zone_id "1791cd65881eb3caf7d1a3cb315342a5" then
        Responded (plain_response 403 "forbidden")
      else Failed RequestException
  | _ => Failed RequestException
  end.

(** A network on which every listing is refused. *)
Definition forbidden_net : world := always (Responded (plain_response 403 EmptyString)).

(** A network that cannot be reached. *)
Definition unreachable_net : world := always (Failed RequestException).

(** The requests [got] of a run with value [v] settle the requests [owed]:
    a run never makes a request that is not owed, makes them in order, and a
    run that returns has made them all. *)
Definition settles {A X} (v : result A) (got owed : list X) : Prop :=
  got `prefix_of` owed /\ (forall a, v = inr a -> got = owed).


(** ** Requests and the rules file *)

(** Every request of a computation satisfies [P], and the computation
    leaves the rules file as it is. *)
Definition requests_in {A} (P : request -> Prop) (m : M A) : Prop :=
  forall s,
    Forall P (requests (trace_of (m s))) /\
    rules_file (state_of (m s)) = rules_file s.

(** A computation makes the requests [reqs], whatever the state it starts
    from and whether it returns or raises; it counts them and leaves the
    rules file as it is. *)
Definition asks {A} (m : M A) (reqs : list request) : Prop :=
  forall s,
    requests (trace_of (m s)) = reqs /\
    rules_file (state_of (m s)) = rules_file s /\
    calls (state_of (m s)) = (calls s + length reqs)%nat.

(** The zone a request of the clean-up goes to. *)
Definition zone_of_request (req : request) : option string :=
  match req with
  | GetRulesets zone_id => Some zone_id
  | DeleteRuleset zone_id _ => Some zone_id
  | GetBlacklist => None
  end.

(** A ruleset the clean-up can read: an object with a string [name] and an
    [id]. *)
Definition readable_ruleset (rs : pyval) : Prop :=
  exists d name id,
    rs = PDict d /\ d !! "name" = Some (PStr name) /\ d !! "id" = Some id.

(** A network that answers every request, and answers a listing with status
    200 by an object whose [result], if any, is an array of readable
    rulesets. *)
Definition answers_listings (net : world) : Prop :=
  forall n req, exists r,
    net n req = Responded r /\
    forall zone_id, req = GetRulesets zone_id -> status_code r = 200 ->
      exists d listed,
        json r = inr (PDict d) /\
        default (PList []) (d !! "result") = PList listed /\
        Forall readable_ruleset listed.

(** A network on which the listings are as on [sample_net] and every DELETE
    is refused. *)
Definition refusing_net : world := fun n req =>
  match req with
  | DeleteRuleset _ _ => Responded (plain_response 500 "error")
  | _ => sample_net n req
  end.

(** ** The country statistics *)

From Stdlib Require Import Sorted.

(** The body of the loop on lines 107-109. *)
Definition count_entry (stats : list (pyval * nat)) (entry : pyval)
  : M (list (pyval * nat)) :=
  country ← lift (py_get entry "countryCode" (PStr "Unknown"));
  lift (count_country stats country).

(** The sum of the counts. *)
Definition total_count (stats : list (pyval * nat)) : nat :=
  foldr (fun p acc => (p.2 + acc)%nat) 0%nat stats.

(** No two keys of the statistics are equal as dictionary keys. *)
Fixpoint distinct_keys (stats : list (pyval * nat)) : Prop :=
  match stats with
  | [] => True
  | p :: rest =>
      Forall (fun q => py_key_eq p.1 q.1 = false) rest /\ distinct_keys rest
  end.

(** The entries with a given count, in order. *)
Definition with_count (n : nat) (stats : list (pyval * nat))
  : list (pyval * nat) :=
  List.filter (fun p => (p.2 =? n)%nat) stats.

(** Counts that do not increase along the list. *)
Definition descending (stats : list (pyval * nat)) : Prop :=
  StronglySorted (fun p q => (q.2 <= p.2)%nat) stats.

(** The country lines of a trace (line 114), in order. *)
Definition country_lines (t : list event) : list (pyval * nat) :=
  omap (fun ev => match ev with
                  | Print (MCountry country count) => Some (country, count)
                  | _ => None
                  end) t.

(** A feed of five entries from three countries, one without a code. *)
Definition mixed_feed : list pyval :=
  [ PDict {["countryCode" := PStr "RU"]};
    PDict {["countryCode" := PStr "DE"]};
    PDict {["countryCode" := PStr "RU"]};
    PDict ∅;
    PDict {["countryCode" := PStr "DE"]} ].

(** [entry.get("countryCode", "Unknown")] on an entry that is an object. *)
Definition country_of (entry : pyval) : pyval :=
  match entry with
  | PDict d => default (PStr "Unknown") (d !! "countryCode")
  | _ => PNone
  end.

(** An entry the loop of lines 107-109 can count: an object whose country
    code, if any, can be a dictionary key. *)
Definition countable_entry (entry : pyval) : Prop :=
  (exists d, entry = PDict d) /\ py_hashable (country_of entry) = true.

(** The statistics of a list of countable entries. *)
Definition tally (items : list pyval) : list (pyval * nat) :=
  fold_left (fun stats entry => bump (country_of entry) stats) items [].

(** The test of line 122 on the sorted statistics. *)
Definition high_risk_on_top (sorted_countries : list (pyval * nat)) : bool :=
  existsb (fun country =>
             existsb (fun c => py_eq_str c.1 country)
                     (take 5 sorted_countries))
          high_risk_countries.

(** The country lines of every run of a computation satisfy [P]. *)
Definition lines_in {A} (P : list (pyval * nat) -> Prop) (m : M A) : Prop :=
  forall s, P (country_lines (trace_of (m s))).

(** ** More sample inputs *)

(** A rules file without ASN rules. *)
Definition plain_document : pyval :=
  PDict {["rules" := PList
            [ sample_rule "Challenge bots" "managed_challenge" "(cf.client.bot)";
              sample_rule "Allow office" "skip" "(ip.src eq 192.0.2.1)" ]]}.

(** A rules file whose mapping has no [rules]. *)
Definition headless_document : pyval := PDict {["version" := PInt 2]}.

(** The line the fetcher prints for an exception (lines 149 and 154). *)
Definition failure_line (e : exn) : msg :=
  match e with
  | RequestException => MNetworkError e
  | _ => MUnexpected e
  end.

(** ** Reading the expression of a rule *)

(** What a reader of the rule finds in its expression: the integers between
    "(ip.geoip.asnum in {" and "})", written in decimal without leading
    zeros, a minus sign before a negative one, separated by single spaces.
    These definitions do not go through [str_of_int] or [str_join]. *)
Definition digit_value (c : ascii) : option N :=
  let code := N_of_ascii c in
  if ((48 <=? code) && (code <=? 57))%N then Some (code - 48)%N else None.

(** The integer read so far: none without a digit, and no "-0". *)
Definition numeral (negative : bool) (digits : option N) : option Z :=
  match digits with
  | None => None
  | Some magnitude =>
      if negative then
        if (magnitude =? 0)%N then None else Some (- Z.of_N magnitude)
      else Some (Z.of_N magnitude)
  end.

(** The integers of "n1 n2 ... nk})", read from left to right; [negative]
    and [digits] are the sign and the digits of the integer being read. *)
Fixpoint read_integers (s : string) (negative : bool) (digits : option N)
  : option (list Z) :=
  match s with
  | EmptyString => None
  | String c rest =>
      match c with
      | "}"%char =>
          match numeral negative digits with
          | Some n => if String.eqb rest ")" then Some [n] else None
          | None => None
          end
      | " "%char =>
          match numeral negative digits with
          | Some n =>
              match read_integers rest false None with
              | Some others => Some (n :: others)
              | None => None
              end
          | None => None
          end
      | "-"%char =>
          match negative, digits with
          | false, None => read_integers rest true None
          | _, _ => None
          end
      | _ =>
          match digit_value c, digits with
          | Some d, None => read_integers rest negative (Some d)
          | Some d, Some 0%N => None
          | Some d, Some m => read_integers rest negative (Some (m * 10 + d)%N)
          | None, _ => None
          end
      end
  end.

(** [s] without the [front] it starts with. *)
Fixpoint strip_front (front s : string) : option string :=
  match front, s with
  | EmptyString, _ => Some s
  | String c front', String c' s' =>
      if Ascii.eqb c c' then strip_front front' s' else None
  | String _ _, EmptyString => None
  end.

(** The ASNs a rule expression tests for. *)
Definition asns_of_expression (expression : string) : option (list Z) :=
  match strip_front "(ip.geoip.asnum in {" expression with
  | Some rest => read_integers rest false None
  | None => None
  end.

(** A rules file the updater can work on: a mapping with a [rules] entry
    that can be run through and in which ["ASN" in rule["name"]] has a value
    for every rule. *)
Definition accepted_document (f : file_state) : Prop :=
  exists d old rules,
    f = Yaml (PDict d) /\
    d !! "rules" = Some old /\
    py_iter old = inr rules /\
    Forall (fun rule => exists b, asn_test rule = inr b) rules.

(** A rules file whose document is a sequence, not a mapping. *)
Definition sequence_document : pyval := PList [PStr "rules"].
(** ** Strings *)

Lemma append_cons (c : ascii) (s1 s2 : string) :
  String c s1 +:+ s2 = String c (s1 +:+ s2).
Proof. reflexivity. Qed.

Lemma prefix_iff (needle hay : string) :
  String.prefix needle hay = true <-> exists rest, hay = needle +:+ rest.
Proof.
  revert hay. induction needle as [|c needle IH]; intros hay.
  - split; [intros _; by exists hay|]. intros _. by destruct hay.
  - destruct hay as [|c' hay]; simpl.
    + split; [done|]. intros [rest Hrest]. by rewrite append_cons in Hrest.
    + destruct (ascii_dec c c') as [->|Hne].
      * rewrite IH. split; intros [rest Hrest]; exists rest;
          rewrite append_cons in *; congruence.
      * split; [done|]. intros [rest Hrest].
        rewrite append_cons in Hrest. congruence.
Qed.

(** [contains] decides the occurrence of [needle] between a front and a
    back part of [hay]. *)
Lemma contains_iff (needle hay : string) :
  contains needle hay = true <->
  exists front back, hay = front +:+ needle +:+ back.
Proof.
  induction hay as [|c hay IH]; cbn [contains].
  - rewrite orb_false_r, prefix_iff. split.
    + intros [back ->]. by exists EmptyString, back.
    + intros (front & back & H). destruct front as [|c front].
      * by exists back.
      * by rewrite append_cons in H.
  - rewrite orb_true_iff, prefix_iff, IH. split.
    + intros [[back ->]|(front & back & ->)].
      * by exists EmptyString, back.
      * by exists (String c front), back.
    + intros (front & back & H). destruct front as [|c' front].
      * left. by exists back.
      * right. rewrite append_cons in H. injection H as -> ->.
        by exists front, back.
Qed.

Example lower_mixed_case :
  lower "Terraform Managed WAF" = "terraform managed waf".
Proof. reflexivity. Qed.

Example contains_is_case_sensitive :
  contains "waf" "Terraform Managed WAF" = false /\
  contains "waf" (lower "Terraform Managed WAF") = true.
Proof. by split. Qed.

Example rule_expression_two :
  rule_expression [64512; 64513] = "(ip.geoip.asnum in {64512 64513})".
Proof. reflexivity. Qed.

Example sorted_desc_is_stable :
  sorted_desc [(PStr "DE", 1%nat); (PStr "RU", 3%nat); (PStr "US", 1%nat);
               (PStr "CN", 3%nat)] =
  [(PStr "RU", 3%nat); (PStr "CN", 3%nat); (PStr "DE", 1%nat);
   (PStr "US", 1%nat)].
Proof. reflexivity. Qed.

Example bump_counts_true_as_one :
  bump (PBool true) (bump (PInt 1) (bump (PStr "RU") [])) =
  [(PStr "RU", 1%nat); (PInt 1, 2%nat)].
Proof. reflexivity. Qed.

(** ** Reasoning about runs *)

Lemma run_bind {A B} (m : M A) (k : A -> M B) (s : state) :
  (m ≫= k) s =
  match m s with
  | (inl e, s1, t1) => (inl e, s1, t1)
  | (inr a, s1, t1) =>
      match k a s1 with
      | (r, s2, t2) => (r, s2, t1 ++ t2)
      end
  end.
Proof. reflexivity. Qed.

Lemma run_ret_bind {A B} (a : A) (k : A -> M B) (s : state) :
  (mret a ≫= k) s = k a s.
Proof. rewrite run_bind. simpl. by destruct (k a s) as [[r s2] t2]. Qed.

Lemma run_lift_bind {A B} (r : result A) (k : A -> M B) (s : state) :
  (lift r ≫= k) s =
  match r with
  | inl e => (inl e, s, [])
  | inr a => k a s
  end.
Proof.
  rewrite run_bind. unfold lift. destruct r as [e|a]; [done|].
  by destruct (k a s) as [[r s2] t2].
Qed.

Lemma run_print_bind {B} (m : msg) (k : unit -> M B) (s : state) :
  (print m ≫= k) s =
  match k tt s with
  | (r, s2, t2) => (r, s2, Print m :: t2)
  end.
Proof. reflexivity. Qed.

(** Unfold the operations of the monad in a run on a given state. *)
Ltac unfold_run :=
  unfold mbind, M_bind, bind, mret, M_ret, ret, lift, print, http,
         trace_of, value_of, state_of; simpl.

(** A run that returns went through both halves of a bind. *)
Lemma bind_returns {A B} (m : M A) (k : A -> M B) s b s2 t :
  (m ≫= k) s = (inr b, s2, t) ->
  exists a s1 t1 t2,
    m s = (inr a, s1, t1) /\ k a s1 = (inr b, s2, t2) /\ t = t1 ++ t2.
Proof.
  rewrite run_bind. destruct (m s) as [[[e|a] s1] t1]; [done|].
  destruct (k a s1) as [[r s2'] t2] eqn:Hk. intros [= -> -> <-].
  by exists a, s1, t1, t2.
Qed.

Lemma only_ret {A} (a : A) (P : A -> Prop) : P a -> only (mret a) P.
Proof. intros HP s a' s' t [= <- _ _]. exact HP. Qed.

Lemma only_bind {A B} (m : M A) (k : A -> M B) (P : B -> Prop) :
  (forall a, only (k a) P) -> only (m ≫= k) P.
Proof.
  intros Hk s b s' t Hrun.
  apply bind_returns in Hrun as (a & s1 & t1 & t2 & _ & Hrun & _).
  by eapply Hk.
Qed.

(** A [try] whose body can only return values in [P], and whose handlers
    return a value in [P] whatever they catch, returns a value in [P]. *)
Lemma try_except_total {A} (body : M A) (handler : exn -> M A) (P : A -> Prop) :
  only body P ->
  (forall e s, exists a s' t, handler e s = (inr a, s', t) /\ P a) ->
  forall s, exists a s' t, try_except body handler s = (inr a, s', t) /\ P a.
Proof.
  intros Hbody Hhandler s. unfold try_except.
  destruct (body s) as [[[e|a] s1] t1] eqn:Hrun.
  - destruct (Hhandler e s1) as (a & s2 & t2 & -> & HP). eauto.
  - exists a, s1, t1. split; [done|]. by eapply Hbody.
Qed.

(** ** The static catalogue *)

Lemma catalogue_length : length get_known_bad_asns = 32%nat.
Proof. reflexivity. Qed.

Lemma catalogue_truncation : take MAX_ASNS get_known_bad_asns = get_known_bad_asns.
Proof. reflexivity. Qed.

(** ** The fetcher *)

Section Fetcher.

Variable key : option string.
Variable net : world.

Lemma fetch_body_only :
  only (fetch_body net) (fun asns => asns = take MAX_ASNS get_known_bad_asns).
Proof.
  unfold fetch_body.
  repeat first
    [ apply only_ret; reflexivity
    | apply only_bind; intros ?
    | match goal with
      | |- only (if ?b then _ else _) _ => destruct b
      | |- only (let _ := _ in _) _ => cbv zeta
      end ].
Qed.

Lemma fetch_handler_total (e : exn) (s : state) :
  exists a s' t,
    fetch_handler e s = (inr a, s', t) /\ a = take MAX_ASNS get_known_bad_asns.
Proof. destruct e; by eexists _, _, _. Qed.

(** Whatever the environment and the network, the fetcher returns, and
    returns the truncated catalogue. *)
Lemma fetch_value (s : state) :
  value_of (fetch_abuseipdb_asns key net s) =
  inr (take MAX_ASNS get_known_bad_asns).
Proof.
  unfold fetch_abuseipdb_asns. destruct (truthy key); simpl.
  - destruct (try_except_total _ _ _ fetch_body_only fetch_handler_total s)
      as (a & s' & t & -> & ->). reflexivity.
  - reflexivity.
Qed.

End Fetcher.

(** C2: whatever the intelligence call does (a response with data, with
    empty data, with any status, a transport failure, any other exception)
    and whether or not a key is configured, [fetch_abuseipdb_asns] returns a
    list of at most 50 ASNs that is a prefix of the static catalogue. *)
Theorem fetch_returns_catalogue_prefix
    (key : option string) (net : world) (s : state) :
  exists asns,
    value_of (fetch_abuseipdb_asns key net s) = inr asns /\
    (length asns <= 50)%nat /\
    asns `prefix_of` get_known_bad_asns.
Proof.
  exists (take MAX_ASNS get_known_bad_asns). split; [apply fetch_value|].
  split.
  - rewrite length_take. unfold MAX_ASNS. lia.
  - apply prefix_take.
Qed.

(** C7: without a key the fetcher makes no request: it prints one line,
    leaves the state alone and returns the truncated catalogue. *)
Theorem fetch_without_key (key : option string) (net : world) (s : state) :
  truthy key = false ->
  fetch_abuseipdb_asns key net s =
    (inr (take MAX_ASNS get_known_bad_asns), s, [Print MNoKey]) /\
  requests (trace_of (fetch_abuseipdb_asns key net s)) = [] /\
  calls (state_of (fetch_abuseipdb_asns key net s)) = calls s.
Proof.
  intros Hkey. unfold fetch_abuseipdb_asns. rewrite Hkey. simpl.
  by destruct s.
Qed.

Lemma fetch_without_key_witness :
  fetch_abuseipdb_asns None (always (Failed RequestException)) fresh =
    (inr (take MAX_ASNS get_known_bad_asns), fresh, [Print MNoKey]) /\
  fetch_abuseipdb_asns (Some EmptyString) (always (Failed RequestException)) fresh =
    (inr (take MAX_ASNS get_known_bad_asns), fresh, [Print MNoKey]).
Proof.
  split.
  - apply (fetch_without_key None). reflexivity.
  - apply (fetch_without_key (Some EmptyString)). reflexivity.
Defined.

(** C6: a 429, a 401 and a 200 whose [data] array is empty take three
    different branches of the fetcher, each of which prints its own lines,
    and all three return the same value: the static catalogue truncated to
    [MAX_ASNS]. *)
Theorem fetch_fallback_convergence
    (key : option string) (s : state) (net429 net401 net200 : world)
    (r429 r401 r200 : response) (d : gmap string pyval) :
  truthy key = true ->
  net429 (calls s) GetBlacklist = Responded r429 -> status_code r429 = 429 ->
  net401 (calls s) GetBlacklist = Responded r401 -> status_code r401 = 401 ->
  net200 (calls s) GetBlacklist = Responded r200 -> status_code r200 = 200 ->
  json r200 = inr (PDict d) -> d !! "data" = Some (PList []) ->
  let run429 := fetch_abuseipdb_asns key net429 s in
  let run401 := fetch_abuseipdb_asns key net401 s in
  let run200 := fetch_abuseipdb_asns key net200 s in
  value_of run429 = inr (take MAX_ASNS get_known_bad_asns) /\
  value_of run401 = value_of run429 /\
  value_of run200 = value_of run429 /\
  trace_of run429 = [Print MAttempt; Http GetBlacklist (Responded r429);
                     Print MRateLimited; Print MFallbackProtect] /\
  trace_of run401 = [Print MAttempt; Http GetBlacklist (Responded r401);
                     Print MAuthFailed; Print MFallback] /\
  trace_of run200 = [Print MAttempt; Http GetBlacklist (Responded r200);
                     Print MCallOk; Print MEmptyData].
Proof.
  intros Hkey H429 S429 H401 S401 H200 S200 Hjson Hdata. cbv zeta.
  rewrite !fetch_value.
  repeat split.
  - unfold fetch_abuseipdb_asns, try_except, fetch_body. rewrite Hkey.
    unfold_run. rewrite H429. simpl. rewrite S429. reflexivity.
  - unfold fetch_abuseipdb_asns, try_except, fetch_body. rewrite Hkey.
    unfold_run. rewrite H401. simpl. rewrite S401. reflexivity.
  - unfold fetch_abuseipdb_asns, try_except, fetch_body. rewrite Hkey.
    unfold_run. rewrite H200. simpl. rewrite S200, Hjson. simpl. rewrite Hdata.
    reflexivity.
Qed.

Lemma fetch_fallback_convergence_witness :
  let run r := fetch_abuseipdb_asns (Some "key") (always (Responded r)) fresh in
  value_of (run (plain_response 429 "slow down")) =
    inr (take MAX_ASNS get_known_bad_asns) /\
  value_of (run (plain_response 401 "denied")) =
    value_of (run (plain_response 429 "slow down")) /\
  value_of (run (json_response 200 empty_feed)) =
    value_of (run (plain_response 429 "slow down")).
Proof.
  assert (Hdata : ({["data" := PList []]} : gmap string pyval) !! "data"
                  = Some (PList [])) by (vm_compute; reflexivity).
  destruct (fetch_fallback_convergence (Some "key") fresh
              (always (Responded (plain_response 429 "slow down")))
              (always (Responded (plain_response 401 "denied")))
              (always (Responded (json_response 200 empty_feed)))
              (plain_response 429 "slow down")
              (plain_response 401 "denied")
              (json_response 200 empty_feed)
              {["data" := PList []]}
              eq_refl eq_refl eq_refl eq_refl eq_refl eq_refl eq_refl eq_refl
              Hdata) as (H1 & H2 & H3 & _).
  exact (conj H1 (conj H2 H3)).
Defined.

(** C9: with a key configured the value returned does not depend on what
    the network answers: two runs that differ in the network (and in the
    state they start from) return the same list, the whole static catalogue,
    which has fewer than [MAX_ASNS] entries and is left whole by the
    truncation. *)
Theorem fetch_ignores_live_feed
    (key : option string) (net1 net2 : world) (s1 s2 : state) :
  truthy key = true ->
  value_of (fetch_abuseipdb_asns key net1 s1) =
    value_of (fetch_abuseipdb_asns key net2 s2) /\
  value_of (fetch_abuseipdb_asns key net1 s1) = inr get_known_bad_asns /\
  (length get_known_bad_asns < MAX_ASNS)%nat /\
  take MAX_ASNS get_known_bad_asns = get_known_bad_asns.
Proof.
  intros _. rewrite !fetch_value, catalogue_truncation, catalogue_length.
  unfold MAX_ASNS. repeat split. lia.
Qed.

Lemma fetch_ignores_live_feed_witness :
  value_of (fetch_abuseipdb_asns (Some "key")
              (always (Responded (json_response 200 busy_feed))) fresh) =
  value_of (fetch_abuseipdb_asns (Some "key")
              (always (Failed RequestException)) fresh).
Proof.
  exact (proj1 (fetch_ignores_live_feed (Some "key") _ _ _ _ eq_refl)).
Defined.

(** ** Comprehensions *)

Lemma filter_each_pure {A} (test : A -> M bool) (f : A -> result bool) :
  (forall x s, test x s = (f x, s, [])) ->
  forall l s, filter_each l test s = (filter_result f l, s, []).
Proof.
  intros Htest l. induction l as [|x rest IH]; intros s; [done|].
  simpl. rewrite run_bind, Htest. destruct (f x) as [e|keep]; [done|].
  rewrite run_bind, IH. by destruct (filter_result f rest).
Qed.

(** The value of a comprehension that did not raise. *)
Lemma filter_result_returns {A} (f : A -> result bool) (l kept : list A) :
  filter_result f l = inr kept ->
  Forall (fun x => exists b, f x = inr b) l /\
  kept = List.filter (fun x => match f x with inr b => b | inl _ => false end) l.
Proof.
  revert kept. induction l as [|x rest IH]; intros kept; simpl.
  - intros [= <-]. by split.
  - destruct (f x) as [e|keep] eqn:Hx; [done|].
    destruct (filter_result f rest) as [e|kept'] eqn:Hrest; [done|].
    intros [= <-]. destruct (IH kept' eq_refl) as [Hall ->].
    split; [constructor; eauto|]. by destruct keep.
Qed.

(** A comprehension whose test never raises does not raise. *)
Lemma filter_result_total {A} (f : A -> result bool) (l : list A) :
  Forall (fun x => exists b, f x = inr b) l ->
  filter_result f l =
  inr (List.filter (fun x => match f x with inr b => b | inl _ => false end) l).
Proof.
  induction 1 as [|x rest [b Hx] _ IH]; simpl; [done|].
  rewrite Hx, IH. by destruct b.
Qed.

(** ** The rules file updater *)

Lemma not_asn_rule_pure (rule : pyval) (s : state) :
  not_asn_rule rule s = (keep_test rule, s, []).
Proof.
  unfold not_asn_rule, keep_test, asn_test. rewrite run_lift_bind.
  destruct (py_getitem rule "name") as [e|name]; [done|].
  rewrite run_lift_bind. by destruct (py_contains "ASN" name).
Qed.

Lemma keep_test_asn_named (rule : pyval) :
  match keep_test rule with inr b => b | inl _ => false end =
  match asn_test rule with inr b => negb b | inl _ => false end.
Proof. unfold keep_test. by destruct (asn_test rule). Qed.

(** On a rule whose name is a string the test is the search for the
    substring "ASN", upper case only. *)
Lemma asn_named_string (d : gmap string pyval) (name : string) :
  d !! "name" = Some (PStr name) ->
  asn_named (PDict d) = contains "ASN" name.
Proof. intros Hname. unfold asn_named, asn_test. simpl. by rewrite Hname. Qed.

(** The rule the updater writes passes for an ASN rule. *)
Lemma rule_block_asn_test (asns : list Z) :
  asn_test (rule_block asns) = inr true.
Proof.
  unfold asn_test, rule_block, py_getitem. by rewrite lookup_insert_eq.
Qed.

Lemma rule_block_fields (asns : list Z) :
  py_getitem (rule_block asns) "name" =
    inr (PStr "Block Known Bad ASNs (AbuseIPDB)") /\
  py_getitem (rule_block asns) "action" = inr (PStr "block") /\
  py_getitem (rule_block asns) "expression" =
    inr (PStr ("(ip.geoip.asnum in {" +:+
               str_join " " (str_of_int <$> asns) +:+ "})")).
Proof.
  unfold rule_block, py_getitem.
  rewrite lookup_insert_eq.
  rewrite lookup_insert_ne, lookup_insert_eq by done.
  by rewrite !lookup_insert_ne, lookup_insert_eq by done.
Qed.

(** The rules a run keeps are those the test does not find. *)
Lemma kept_rules (rules kept : list pyval) :
  filter_result keep_test rules = inr kept ->
  kept = List.filter (fun rule => negb (asn_named rule)) rules /\
  Forall (fun rule => asn_test rule = inr false) kept.
Proof.
  intros H. apply filter_result_returns in H as [Hall ->]. split.
  - rewrite List.Forall_forall in Hall.
    apply filter_ext_in. intros rule Hin. unfold asn_named.
    rewrite keep_test_asn_named.
    destruct (Hall rule Hin) as [b Hb]. revert Hb. unfold keep_test.
    by destruct (asn_test rule).
  - apply List.Forall_forall. intros rule [_ Hkeep]%filter_In.
    revert Hkeep. unfold keep_test.
    by destruct (asn_test rule) as [e|[]].
Qed.

(** The run of the updater on a document whose rules can all be tested. *)
Lemma update_rules_yaml_run (asns : list Z) (s : state)
    (d : gmap string pyval) (old : pyval) (rules kept : list pyval) :
  rules_file s = Yaml (PDict d) ->
  d !! "rules" = Some old ->
  py_iter old = inr rules ->
  filter_result keep_test rules = inr kept ->
  update_rules_yaml asns s =
    (inr tt,
     mkState (calls s)
             (Yaml (PDict (<["rules" := PList (kept ++ appended_rules asns)]> d))),
     [Print (update_line asns)]).
Proof.
  intros Hfile Hrules Hiter Hkept. unfold update_rules_yaml.
  rewrite run_bind. unfold load_yaml at 1. rewrite Hfile.
  rewrite run_lift_bind. simpl py_getitem. rewrite Hrules.
  rewrite run_lift_bind, Hiter.
  rewrite run_bind, (filter_each_pure _ _ not_asn_rule_pure), Hkept.
  rewrite run_lift_bind. simpl py_setitem.
  destruct asns as [|a asns].
  - unfold_run. by rewrite app_nil_r.
  - unfold_run. rewrite lookup_insert_eq. simpl.
    by rewrite insert_insert_eq.
Qed.

(** A run of the updater that returns read such a document. *)
Lemma update_rules_yaml_returns (asns : list Z) (s s' : state)
    (t : list event) :
  update_rules_yaml asns s = (inr tt, s', t) ->
  exists d old rules kept,
    rules_file s = Yaml (PDict d) /\
    d !! "rules" = Some old /\
    py_iter old = inr rules /\
    filter_result keep_test rules = inr kept /\
    s' = mkState (calls s)
           (Yaml (PDict (<["rules" := PList (kept ++ appended_rules asns)]> d))) /\
    t = [Print (update_line asns)].
Proof.
  intros Hrun.
  assert (exists d old rules kept,
            rules_file s = Yaml (PDict d) /\ d !! "rules" = Some old /\
            py_iter old = inr rules /\
            filter_result keep_test rules = inr kept)
    as (d & old & rules & kept & Hfile & Hrules & Hiter & Hkept).
  { revert Hrun. unfold update_rules_yaml.
    rewrite run_bind. unfold load_yaml at 1.
    destruct (rules_file s) as [| |e|data]; [done..|].
    rewrite run_lift_bind.
    destruct data as [| | | | |d]; try done. simpl py_getitem.
    destruct (d !! "rules") as [old|] eqn:Hrules; [|done].
    rewrite run_lift_bind.
    destruct (py_iter old) as [e|rules] eqn:Hiter; [done|].
    rewrite run_bind, (filter_each_pure _ _ not_asn_rule_pure).
    destruct (filter_result keep_test rules) as [e|kept] eqn:Hkept; [done|].
    intros _. by exists d, old, rules, kept. }
  rewrite (update_rules_yaml_run asns s d old rules kept) in Hrun by done.
  injection Hrun as <- <-. by exists d, old, rules, kept.
Qed.

Lemma rules_of_insert (d : gmap string pyval) (rules : list pyval) :
  rules_of (Yaml (PDict (<["rules" := PList rules]> d))) = Some rules.
Proof. unfold rules_of. by rewrite lookup_insert_eq. Qed.

Lemma filter_asn_named_kept (kept : list pyval) :
  Forall (fun rule => asn_test rule = inr false) kept ->
  List.filter asn_named kept = [].
Proof.
  induction 1 as [|rule kept Hrule _ IH]; [done|].
  simpl. unfold asn_named at 1. by rewrite Hrule.
Qed.

Lemma filter_asn_named_appended (asns : list Z) :
  List.filter asn_named (appended_rules asns) = appended_rules asns.
Proof.
  destruct asns; [done|]. simpl. unfold asn_named.
  by rewrite rule_block_asn_test.
Qed.

Lemma filter_keep_kept (kept : list pyval) :
  Forall (fun rule => asn_test rule = inr false) kept ->
  List.filter (fun rule => match keep_test rule with
                           | inr b => b
                           | inl _ => false
                           end) kept = kept.
Proof.
  induction 1 as [|rule kept Hrule _ IH]; [done|].
  simpl. unfold keep_test at 1. rewrite Hrule. simpl. by rewrite IH.
Qed.

(** C3: after a run of the updater that returns, at most one rule of the
    document is an ASN rule, and none is when the list of ASNs is empty. *)
Theorem update_leaves_at_most_one_asn_rule
    (asns : list Z) (s s' : state) (t : list event) :
  update_rules_yaml asns s = (inr tt, s', t) ->
  exists rules',
    rules_of (rules_file s') = Some rules' /\
    (length (List.filter asn_named rules') <= 1)%nat /\
    (asns = [] -> List.filter asn_named rules' = []).
Proof.
  intros (d & old & rules & kept & _ & _ & _ & Hkept & -> & _)
    %update_rules_yaml_returns.
  apply kept_rules in Hkept as [_ Hkept].
  exists (kept ++ appended_rules asns). simpl rules_file.
  rewrite rules_of_insert, List.filter_app, (filter_asn_named_kept _ Hkept),
    filter_asn_named_appended. simpl.
  split; [done|]. split.
  - destruct asns; simpl; lia.
  - by intros ->.
Qed.

Lemma update_leaves_at_most_one_asn_rule_witness :
  exists rules',
    rules_of (rules_file (state_of (update_rules_yaml [64512; 64513] sample_state)))
      = Some rules' /\
    (length (List.filter asn_named rules') <= 1)%nat /\
    ([64512; 64513] = @nil Z -> List.filter asn_named rules' = []).
Proof.
  apply (update_leaves_at_most_one_asn_rule [64512; 64513] sample_state _
           (trace_of (update_rules_yaml [64512; 64513] sample_state))).
  vm_compute. reflexivity.
Defined.

(** ** The expression of the rule, read back *)

Lemma string_append_assoc (s1 s2 s3 : string) :
  (s1 +:+ s2) +:+ s3 = s1 +:+ (s2 +:+ s3).
Proof.
  induction s1 as [|c s1 IH]; [done|]. by rewrite !append_cons, IH.
Qed.

Lemma pretty_N_go_app (x : N) (s : string) :
  pretty_N_go x s = pretty_N_go x EmptyString +:+ s.
Proof.
  revert s. induction (N.lt_wf_0 x) as [x _ IH]; intros s.
  destruct (decide (x = 0)%N) as [->|Hx].
  - by rewrite !pretty_N_go_0.
  - rewrite (pretty_N_go_step x s), (pretty_N_go_step x EmptyString) by lia.
    assert (x `div` 10 < x)%N as Hlt by (apply N.div_lt; lia).
    rewrite (IH _ Hlt (String _ s)), (IH _ Hlt (String _ EmptyString)).
    by rewrite string_append_assoc, append_cons.
Qed.

(** One decimal digit, as [str] writes it, read back. *)
Lemma read_digit (d : N) (s : string) (negative : bool) (digits : option N) :
  (d < 10)%N ->
  read_integers (String (pretty_N_char d) s) negative digits =
  match digits with
  | None => read_integers s negative (Some d)
  | Some 0%N => None
  | Some m => read_integers s negative (Some (m * 10 + d)%N)
  end.
Proof.
  intros Hd.
  assert (d = 0 \/ d = 1 \/ d = 2 \/ d = 3 \/ d = 4 \/ d = 5 \/ d = 6 \/
          d = 7 \/ d = 8 \/ d = 9)%N as Hcases by lia.
  destruct Hcases as [->|[->|[->|[->|[->|[->|[->|[->|[->| ->]]]]]]]]];
    by destruct digits as [[|m]|].
Qed.

(** The digits of a positive number, as [str] writes them, read back. *)
Lemma read_number (x : N) (s : string) (negative : bool) :
  (0 < x)%N ->
  read_integers (pretty_N_go x s) negative None =
  read_integers s negative (Some x).
Proof.
  revert s. induction (N.lt_wf_0 x) as [x _ IH]; intros s Hx.
  rewrite pretty_N_go_step by done.
  pose proof (N.div_mod' x 10) as Hdiv.
  assert (x `mod` 10 < 10)%N as Hmod by (apply N.mod_lt; lia).
  destruct (x `div` 10)%N as [|q] eqn:Hq.
  - rewrite pretty_N_go_0, read_digit by done. do 2 f_equal. lia.
  - rewrite IH by (rewrite <- ?Hq; try apply N.div_lt; lia).
    rewrite read_digit by done. do 2 f_equal. lia.
Qed.

(** An integer, as [str] writes it, read back. *)
Lemma read_int (z : Z) (s : string) :
  read_integers (str_of_int z +:+ s) false None =
  read_integers s (z <? 0) (Some (Z.abs_N z)).
Proof.
  unfold str_of_int. destruct z as [|p|p].
  - reflexivity.
  - change (pretty (Z.pos p)) with (pretty_N_go (N.pos p) EmptyString).
    rewrite <- pretty_N_go_app. by apply read_number.
  - change (pretty (Z.neg p)) with
      ("-" +:+ pretty_N_go (N.pos p) EmptyString).
    rewrite string_append_assoc, <- pretty_N_go_app.
    change (read_integers (pretty_N_go (N.pos p) s) true None =
            read_integers s true (Some (N.pos p))).
    by apply read_number.
Qed.

Lemma numeral_of_int (z : Z) : numeral (z <? 0) (Some (Z.abs_N z)) = Some z.
Proof. by destruct z. Qed.

(** The ASNs joined by spaces, read back. *)
Lemma read_joined (asns : list Z) :
  asns <> [] ->
  read_integers (str_join " " (str_of_int <$> asns) +:+ "})") false None =
  Some asns.
Proof.
  induction asns as [|a asns IH]; [done|]. intros _.
  destruct asns as [|b asns].
  - change (str_join " " (str_of_int <$> [a])) with (str_of_int a).
    rewrite read_int.
    change (read_integers "})" (a <? 0) (Some (Z.abs_N a))) with
      (match numeral (a <? 0) (Some (Z.abs_N a)) with
       | Some n => Some [n]
       | None => None
       end).
    by rewrite numeral_of_int.
  - change (str_join " " (str_of_int <$> a :: b :: asns)) with
      (str_of_int a +:+ " " +:+ str_join " " (str_of_int <$> b :: asns)).
    rewrite !string_append_assoc, read_int.
    change (read_integers (" " +:+ ?rest) ?negative ?digits) with
      (match numeral negative digits with
       | Some n =>
           match read_integers rest false None with
           | Some others => Some (n :: others)
           | None => None
           end
       | None => None
       end).
    rewrite numeral_of_int, IH by done. reflexivity.
Qed.

(** The expression of the rule holds the ASNs it was built from: read as
    decimal integers between the braces, they are the list, in order. *)
Lemma rule_expression_read_back (asns : list Z) :
  asns <> [] -> asns_of_expression (rule_expression asns) = Some asns.
Proof.
  intros Hasns. unfold asns_of_expression, rule_expression.
  change (strip_front "(ip.geoip.asnum in {"
            ("(ip.geoip.asnum in {" +:+ ?rest)) with (Some rest).
  by apply read_joined.
Qed.

(** C4: on a document whose rules can be read, a run with a list of ASNs
    that is not empty returns and writes the rules it keeps followed by one
    new rule, the last of the sequence, named
    "Block Known Bad ASNs (AbuseIPDB)", with action "block" and the
    expression "(ip.geoip.asnum in {...})" around the ASNs in decimal,
    separated by single spaces: read back from the expression, the integers
    between the braces are the ASNs of the list, in order.  For the list
    [64512; 64513] the expression is "(ip.geoip.asnum in {64512 64513})". *)
Theorem update_appends_one_block_rule
    (asns : list Z) (s : state) (d : gmap string pyval) (old : pyval)
    (rules : list pyval) :
  asns <> [] ->
  rules_file s = Yaml (PDict d) ->
  d !! "rules" = Some old ->
  py_iter old = inr rules ->
  Forall (fun rule => exists b, asn_test rule = inr b) rules ->
  let kept := List.filter (fun rule => negb (asn_named rule)) rules in
  let run := update_rules_yaml asns s in
  value_of run = inr tt /\
  rules_of (rules_file (state_of run)) = Some (kept ++ [rule_block asns]) /\
  List.filter asn_named kept = [] /\
  last (kept ++ [rule_block asns]) = Some (rule_block asns) /\
  length (kept ++ [rule_block asns]) = S (length kept) /\
  py_getitem (rule_block asns) "name" =
    inr (PStr "Block Known Bad ASNs (AbuseIPDB)") /\
  py_getitem (rule_block asns) "action" = inr (PStr "block") /\
  py_getitem (rule_block asns) "expression" =
    inr (PStr ("(ip.geoip.asnum in {" +:+
               str_join " " (str_of_int <$> asns) +:+ "})")) /\
  (exists expression,
     py_getitem (rule_block asns) "expression" = inr (PStr expression) /\
     asns_of_expression expression = Some asns) /\
  rule_block [64512; 64513] =
    PDict {["name" := PStr "Block Known Bad ASNs (AbuseIPDB)";
            "action" := PStr "block";
            "expression" := PStr "(ip.geoip.asnum in {64512 64513})"]}.
Proof.
  intros Hasns Hfile Hold Hiter Hall kept run.
  assert (filter_result keep_test rules = inr kept) as Hkept.
  { rewrite filter_result_total.
    - f_equal. apply List.filter_ext_in. intros rule Hin.
      rewrite List.Forall_forall in Hall. destruct (Hall rule Hin) as [b Hb].
      unfold asn_named, keep_test. by rewrite Hb.
    - eapply Forall_impl; [exact Hall|]. intros rule [b Hb].
      unfold keep_test. rewrite Hb. eauto. }
  subst run.
  rewrite (update_rules_yaml_run asns s d old rules kept) by done.
  pose proof (rule_expression_read_back asns Hasns) as Hread.
  destruct asns as [|a asns]; [done|]. unfold value_of, state_of. simpl fst.
  simpl snd. simpl appended_rules. simpl rules_file. rewrite rules_of_insert.
  apply kept_rules in Hkept as [_ Hkept].
  rewrite (filter_asn_named_kept _ Hkept), last_snoc, length_app. simpl.
  pose proof (rule_block_fields (a :: asns)) as (Hn & Ha & He).
  do 8 (split; [done || lia|]). split.
  - exists (rule_expression (a :: asns)). split; [exact He|exact Hread].
  - vm_compute. reflexivity.
Qed.

Lemma update_appends_one_block_rule_witness :
  rules_of (rules_file (state_of (update_rules_yaml [64512; 64513] sample_state)))
  = Some [ sample_rule "Challenge bots" "managed_challenge" "(cf.client.bot)";
           PDict {["name" := PStr "Block Known Bad ASNs (AbuseIPDB)";
                   "action" := PStr "block";
                   "expression" := PStr "(ip.geoip.asnum in {64512 64513})"]} ] /\
  asns_of_expression "(ip.geoip.asnum in {64512 64513})" = Some [64512; 64513].
Proof.
  assert (Hold : ({["version" := PInt 2;
                    "rules" := PList
                      [ sample_rule "Block ASN list 1" "block" "(ip.geoip.asnum in {1})";
                        sample_rule "Challenge bots" "managed_challenge" "(cf.client.bot)";
                        sample_rule "Old ASNs" "block" "(ip.geoip.asnum in {2 3})" ]]}
                   : gmap string pyval) !! "rules" = Some (PList
                      [ sample_rule "Block ASN list 1" "block" "(ip.geoip.asnum in {1})";
                        sample_rule "Challenge bots" "managed_challenge" "(cf.client.bot)";
                        sample_rule "Old ASNs" "block" "(ip.geoip.asnum in {2 3})" ]))
    by (vm_compute; reflexivity).
  assert (Hall : Forall (fun rule => exists b, asn_test rule = inr b)
                   [ sample_rule "Block ASN list 1" "block" "(ip.geoip.asnum in {1})";
                     sample_rule "Challenge bots" "managed_challenge" "(cf.client.bot)";
                     sample_rule "Old ASNs" "block" "(ip.geoip.asnum in {2 3})" ])
    by (repeat constructor; eexists; vm_compute; reflexivity).
  destruct (update_appends_one_block_rule [64512; 64513] sample_state _ _ _
              ltac:(discriminate) eq_refl Hold eq_refl Hall)
    as (_ & Hrules & _ & _ & _ & _ & _ & _ & (expression & Hexpr & Hread)
        & Hblock).
  rewrite Hblock in Hrules, Hexpr. split.
  - rewrite Hrules. vm_compute. reflexivity.
  - vm_compute in Hexpr. injection Hexpr as <-. exact Hread.
Defined.

(** A second run on the document written by a first run. *)
Lemma update_rules_yaml_again (asns : list Z) (c : nat)
    (d : gmap string pyval) (kept : list pyval) :
  Forall (fun rule => asn_test rule = inr false) kept ->
  let s1 := mkState c
              (Yaml (PDict (<["rules" := PList (kept ++ appended_rules asns)]> d))) in
  update_rules_yaml asns s1 = (inr tt, s1, [Print (update_line asns)]).
Proof.
  intros Hkept s1.
  assert (filter_result keep_test (kept ++ appended_rules asns) = inr kept)
    as Hagain.
  { rewrite filter_result_total.
    - rewrite List.filter_app, (filter_keep_kept _ Hkept).
      destruct asns; simpl; [by rewrite app_nil_r|].
      unfold keep_test at 1. rewrite rule_block_asn_test. simpl.
      by rewrite app_nil_r.
    - apply Forall_app. split.
      + eapply Forall_impl; [exact Hkept|]. intros rule Hrule.
        unfold keep_test. rewrite Hrule. eauto.
      + destruct asns; constructor; [|constructor].
        unfold keep_test. rewrite rule_block_asn_test. eauto. }
  rewrite (update_rules_yaml_run asns s1 _ _ _ kept eq_refl
             (lookup_insert_eq _ _ _) eq_refl Hagain).
  subst s1. simpl calls. by rewrite insert_insert_eq.
Qed.

(** C5: a second run with the same list that is not empty returns as the
    first did and leaves the state of the first run as it is; the document
    then holds exactly one ASN rule, the one the run wrote.  For the list
    [64512; 64513] that rule has action "block" and an expression in which
    both numbers occur. *)
Theorem update_twice_is_update_once :
  (forall (asns : list Z) (s s1 : state) (t1 : list event),
     asns <> [] ->
     update_rules_yaml asns s = (inr tt, s1, t1) ->
     update_rules_yaml asns s1 = (inr tt, s1, t1) /\
     exists rules1,
       rules_of (rules_file s1) = Some rules1 /\
       List.filter asn_named rules1 = [rule_block asns]) /\
  (forall (s s1 : state) (t1 : list event),
     update_rules_yaml [64512; 64513] s = (inr tt, s1, t1) ->
     exists rules1 rule expression,
       rules_of (rules_file s1) = Some rules1 /\
       List.filter asn_named rules1 = [rule] /\
       py_getitem rule "action" = inr (PStr "block") /\
       py_getitem rule "expression" = inr (PStr expression) /\
       contains "64512" expression = true /\
       contains "64513" expression = true).
Proof.
  assert (forall (asns : list Z) (s s1 : state) (t1 : list event),
            asns <> [] ->
            update_rules_yaml asns s = (inr tt, s1, t1) ->
            update_rules_yaml asns s1 = (inr tt, s1, t1) /\
            exists rules1,
              rules_of (rules_file s1) = Some rules1 /\
              List.filter asn_named rules1 = [rule_block asns]) as Hgeneral.
  { intros asns s s1 t1 Hasns
      (d & old & rules & kept & _ & _ & _ & Hkept & -> & ->)
      %update_rules_yaml_returns.
    apply kept_rules in Hkept as [_ Hkept]. split.
    - by apply update_rules_yaml_again.
    - exists (kept ++ appended_rules asns). simpl rules_file.
      rewrite rules_of_insert, List.filter_app,
        (filter_asn_named_kept _ Hkept), filter_asn_named_appended.
      by destruct asns. }
  split; [exact Hgeneral|].
  intros s s1 t1 Hrun.
  destruct (Hgeneral [64512; 64513] s s1 t1) as [_ (rules1 & Hrules1 & Hone)];
    [done..|].
  exists rules1, (rule_block [64512; 64513]),
    "(ip.geoip.asnum in {64512 64513})".
  destruct (rule_block_fields [64512; 64513]) as (_ & Haction & Hexpr).
  repeat split; try done.
Qed.

Lemma update_twice_is_update_once_witness :
  update_rules_yaml [64512; 64513]
    (state_of (update_rules_yaml [64512; 64513] sample_state)) =
  update_rules_yaml [64512; 64513] sample_state.
Proof.
  refine (proj1 (proj1 update_twice_is_update_once [64512; 64513]
                   sample_state _ _ _ _)).
  - discriminate.
  - vm_compute. reflexivity.
Defined.

(** C10: a run of the updater that returns keeps the rules that are not ASN
    rules, as they were and in their order, puts what it adds after them,
    leaves every other top-level entry of the document as it was, and makes
    no request. *)
Theorem update_frame
    (asns : list Z) (s s' : state) (t : list event) :
  update_rules_yaml asns s = (inr tt, s', t) ->
  exists old rules added,
    top_level (rules_file s) "rules" = Some old /\
    py_iter old = inr rules /\
    rules_of (rules_file s') =
      Some (List.filter (fun rule => negb (asn_named rule)) rules ++ added) /\
    added = appended_rules asns /\
    Forall (fun rule => asn_named rule = true) added /\
    (forall key, key <> "rules" ->
       top_level (rules_file s') key = top_level (rules_file s) key) /\
    calls s' = calls s /\
    requests t = [].
Proof.
  intros (d & old & rules & kept & Hfile & Hold & Hiter & Hkept & -> & ->)
    %update_rules_yaml_returns.
  apply kept_rules in Hkept as [-> _].
  exists old, rules, (appended_rules asns). rewrite Hfile. simpl.
  rewrite lookup_insert_eq.
  repeat split; try done.
  - destruct asns; constructor; [|constructor].
    unfold asn_named. by rewrite rule_block_asn_test.
  - intros key Hkey. by rewrite lookup_insert_ne.
Qed.

Lemma update_frame_witness :
  exists old rules added,
    top_level (rules_file sample_state) "rules" = Some old /\
    py_iter old = inr rules /\
    rules_of (rules_file (state_of (update_rules_yaml [64512] sample_state))) =
      Some (List.filter (fun rule => negb (asn_named rule)) rules ++ added) /\
    added = appended_rules [64512] /\
    Forall (fun rule => asn_named rule = true) added /\
    (forall key, key <> "rules" ->
       top_level (rules_file (state_of (update_rules_yaml [64512] sample_state))) key
       = top_level (rules_file sample_state) key) /\
    calls (state_of (update_rules_yaml [64512] sample_state)) = calls sample_state /\
    requests (trace_of (update_rules_yaml [64512] sample_state)) = [].
Proof.
  apply (update_frame [64512] sample_state).
  vm_compute. reflexivity.
Defined.

(** ** The clean-up client *)

Lemma is_custom_zone_ruleset_pure (rs : pyval) (s : state) :
  is_custom_zone_ruleset rs s = (custom_test rs, s, []).
Proof.
  unfold is_custom_zone_ruleset, custom_test. rewrite run_lift_bind.
  destruct (py_get rs "phase" PNone) as [e|phase]; [done|].
  destruct (py_eq_str phase "http_request_firewall_custom"); [|done].
  rewrite run_lift_bind. by destruct (py_get rs "kind" PNone).
Qed.

(** The targeted rulesets are the custom zone rulesets with a keyword in
    their name. *)
Lemma targeted_custom_keyword (rs : pyval) :
  targeted rs =
  match custom_test rs with inr b => b | inl _ => false end && keyword_named rs.
Proof.
  destruct rs as [| | | | |d]; try done.
  unfold targeted, custom_test, keyword_named, field_is. simpl.
  destruct (d !! "phase") as [[| | |phase| |]|]; simpl; try done.
  destruct (String.eqb phase "http_request_firewall_custom"); simpl; [|done].
  destruct (d !! "kind") as [[| | |kind| |]|]; simpl; try done.
  destruct (String.eqb kind "zone"); simpl; [|done].
  by destruct (d !! "name") as [[| | |name| |]|].
Qed.

Lemma filter_targeted_custom (listed custom : list pyval) :
  filter_result custom_test listed = inr custom ->
  List.filter targeted listed = List.filter keyword_named custom.
Proof.
  revert custom. induction listed as [|rs rest IH]; intros custom; simpl.
  - by intros [= <-].
  - rewrite targeted_custom_keyword.
    destruct (custom_test rs) as [e|b]; [done|].
    destruct (filter_result custom_test rest) as [e|kept]; [done|].
    intros [= <-]. rewrite (IH kept eq_refl). by destruct b.
Qed.

Lemma deletes_app (t1 t2 : list event) :
  deletes (t1 ++ t2) = deletes t1 ++ deletes t2.
Proof. apply omap_app. Qed.

Lemma listings_app (t1 t2 : list event) :
  listings (t1 ++ t2) = listings t1 ++ listings t2.
Proof. apply omap_app. Qed.


Lemma flat_map_filter {A B} (P : A -> bool) (f : A -> B) (l : list A) :
  flat_map (fun x => if P x then [f x] else []) l = map f (List.filter P l).
Proof.
  induction l as [|x rest IH]; [done|]. simpl. rewrite IH. by destruct (P x).
Qed.

Lemma settles_nil {A X} (v : result A) (owed : list X) :
  (forall a, v = inr a -> owed = []) -> settles v [] owed.
Proof.
  intros H. split; [apply prefix_nil|]. intros a Ha. symmetry. by eapply H.
Qed.

Lemma settles_raised {A X} (e : exn) (owed : list X) :
  settles (inl e : result A) [] owed.
Proof. by apply settles_nil. Qed.

Lemma settles_refl {A X} (v : result A) (owed : list X) : settles v owed owed.
Proof. by split. Qed.

(** One step of the inner loop (lines 243-250): it lists nothing, and its
    DELETE, if any, is the one owed to a ruleset with a keyword in its
    name. *)
Lemma cleanup_ruleset_run (net : world) (zone_id : string) (rs : pyval)
    (s : state) :
  let run := cleanup_ruleset net zone_id rs s in
  listings (trace_of run) = [] /\
  settles (value_of run) (deletes (trace_of run))
          (if keyword_named rs then [(zone_id, ruleset_id rs)] else []).
Proof.
  unfold cleanup_ruleset, keyword_named, ruleset_id.
  rewrite run_lift_bind.
  destruct rs as [| | | | |d]; try (split; [done|apply settles_refl]).
  simpl py_getitem.
  destruct (d !! "name") as [name|]; [|split; [done|apply settles_refl]].
  rewrite run_lift_bind.
  destruct (d !! "id") as [id|]; [|split; [done|apply settles_raised]].
  rewrite run_print_bind, run_lift_bind.
  destruct name as [| | |name| |]; try (split; [done|apply settles_refl]).
  simpl py_lower. cbv beta iota.
  destruct (existsb (fun keyword => contains keyword (lower name))
                    managed_keywords);
    unfold delete_ruleset; unfold_run; [|split; [done|apply settles_refl]].
  destruct (net (calls s) (DeleteRuleset zone_id id)) as [r|e]; simpl.
  - destruct ((status_code r =? 200) || (status_code r =? 204)); simpl;
      (split; [done|apply settles_refl]).
  - split; [done|apply settles_refl].
Qed.

(** The inner loop. *)
Lemma cleanup_rulesets_run (net : world) (zone_id : string)
    (custom : list pyval) (s : state) :
  let run := for_each custom (cleanup_ruleset net zone_id) s in
  listings (trace_of run) = [] /\
  settles (value_of run) (deletes (trace_of run))
          (map (fun rs => (zone_id, ruleset_id rs))
               (List.filter keyword_named custom)).
Proof.
  rewrite <- flat_map_filter. revert s.
  induction custom as [|rs rest IH]; intros s.
  - split; [done|apply settles_refl].
  - simpl for_each. rewrite run_bind.
    pose proof (cleanup_ruleset_run net zone_id rs s) as [Hl1 [Hp1 He1]].
    destruct (cleanup_ruleset net zone_id rs s) as [[[e|[]] s1] t1];
      unfold trace_of, value_of in *; simpl in *.
    + split; [done|]. split; [|done]. by apply prefix_app_r.
    + pose proof (IH s1) as [Hl2 [Hp2 He2]].
      destruct (for_each rest (cleanup_ruleset net zone_id) s1)
        as [[r s2] t2]; simpl in *.
      rewrite listings_app, deletes_app, Hl1, Hl2, (He1 () eq_refl).
      split; [done|]. split; [by apply prefix_app|].
      intros a Ha. by rewrite (He2 a Ha).
Qed.

(** The listing of a zone (lines 180-198) when a token is configured: one
    request, whose answer decides the value, and a line for a status other
    than 200. *)
Lemma get_zone_rulesets_run (token : option string) (net : world)
    (zone_id : string) (s : state) :
  truthy token = true ->
  let out := net (calls s) (GetRulesets zone_id) in
  get_zone_rulesets token net zone_id s =
    (zone_listing out,
     mkState (S (calls s)) (rules_file s),
     Http (GetRulesets zone_id) out ::
     match out with
     | Responded r =>
         if negb (status_code r =? 200)
         then [Print (MErrFetching zone_id (status_code r))] else []
     | Failed _ => []
     end).
Proof.
  intros Htoken. unfold get_zone_rulesets, zone_listing. rewrite Htoken.
  unfold_run. destruct (net (calls s) (GetRulesets zone_id)) as [r|e]; [|done].
  simpl. destruct (status_code r =? 200); [|done]. simpl.
  destruct (json r) as [e|body]; [done|]. simpl.
  by destruct (py_get body "result" (PList [])).
Qed.

(** One step of the loop over the zones (lines 226-250) when a token is
    configured: it lists its zone once, and its DELETEs settle what that
    listing owes. *)
Lemma cleanup_zone_run (token : option string) (net : world)
    (zone : string * string) (s : state) :
  truthy token = true ->
  let run := cleanup_zone token net zone s in
  let out := net (calls s) (GetRulesets zone.2) in
  listings (trace_of run) = [(zone.2, out)] /\
  settles (value_of run) (deletes (trace_of run))
          (expected_deletes [(zone.2, out)]).
Proof.
  intros Htoken. cbv zeta. unfold cleanup_zone.
  rewrite run_print_bind, run_bind, (get_zone_rulesets_run _ _ _ _ Htoken).
  unfold expected_deletes, listed_rulesets. simpl flat_map.
  rewrite app_nil_r.
  set (out := net (calls s) (GetRulesets zone.2)).
  set (extra := match out with
                | Responded r =>
                    if negb (status_code r =? 200)
                    then [Print (MErrFetching zone.2 (status_code r))] else []
                | Failed _ => []
                end).
  assert (listings extra = [] /\ deletes extra = []) as [Hle Hde].
  { subst extra. destruct out as [r|e]; [|done].
    by destruct (negb (status_code r =? 200)). }
  simpl fst. simpl snd.
  destruct (zone_listing out) as [e|rulesets].
  { unfold trace_of, value_of. simpl.
    rewrite Hle, Hde. split; [done|apply settles_raised]. }
  rewrite run_lift_bind.
  destruct (py_iter rulesets) as [e|listed].
  { unfold trace_of, value_of. simpl. rewrite app_nil_r, Hle, Hde.
    split; [done|apply settles_raised]. }
  rewrite run_bind, (filter_each_pure _ _ is_custom_zone_ruleset_pure).
  destruct (filter_result custom_test listed) as [e|custom] eqn:Hcustom.
  { unfold trace_of, value_of. simpl. rewrite app_nil_r, Hle, Hde.
    split; [done|apply settles_raised]. }
  rewrite (filter_targeted_custom _ _ Hcustom).
  destruct custom as [|rs custom].
  { unfold trace_of, value_of. simpl.
    rewrite listings_app, deletes_app, Hle, Hde.
    split; [done|apply settles_refl]. }
  rewrite run_print_bind.
  pose proof (cleanup_rulesets_run net zone.2 (rs :: custom)
                (mkState (S (calls s)) (rules_file s))) as [Hl [Hp He]].
  destruct (for_each (rs :: custom) (cleanup_ruleset net zone.2) _)
    as [[r s2] t2].
  unfold trace_of, value_of in *. simpl in *.
  rewrite listings_app, deletes_app, Hle, Hde. simpl.
  rewrite Hl. by split.
Qed.







(** One step of the loop over the zones when the listing is answered with a
    status other than 200. *)
Lemma cleanup_zone_refused (token : option string) (net : world)
    (zone : string * string) (s : state) (r : response) :
  truthy token = true ->
  net (calls s) (GetRulesets zone.2) = Responded r ->
  status_code r <> 200 ->
  cleanup_zone token net zone s =
    (inr tt, mkState (S (calls s)) (rules_file s),
     [Print (MZone zone.1 zone.2);
      Http (GetRulesets zone.2) (Responded r);
      Print (MErrFetching zone.2 (status_code r));
      Print MNoCustom]).
Proof.
  intros Htoken Hnet Hstatus. unfold cleanup_zone.
  rewrite run_print_bind, run_bind, (get_zone_rulesets_run _ _ _ _ Htoken).
  rewrite Hnet. unfold zone_listing.
  apply Z.eqb_neq in Hstatus. rewrite Hstatus. reflexivity.
Qed.

(** One step of the loop over the zones when the listing request raises. *)
Lemma cleanup_zone_raised (token : option string) (net : world)
    (zone : string * string) (s : state) (e : exn) :
  truthy token = true ->
  net (calls s) (GetRulesets zone.2) = Failed e ->
  cleanup_zone token net zone s =
    (inl e, mkState (S (calls s)) (rules_file s),
     [Print (MZone zone.1 zone.2); Http (GetRulesets zone.2) (Failed e)]).
Proof.
  intros Htoken Hnet. unfold cleanup_zone.
  rewrite run_print_bind, run_bind, (get_zone_rulesets_run _ _ _ _ Htoken).
  rewrite Hnet. reflexivity.
Qed.

(** A listing request that raises ends the loop over the zones, whichever
    zone it is for. *)
Lemma cleanup_zones_raise (token : option string) (net : world)
    (zones : list (string * string)) (s : state) (zone_id : string)
    (e : exn) :
  truthy token = true ->
  In (zone_id, Failed e)
     (listings (trace_of (for_each zones (cleanup_zone token net) s))) ->
  value_of (for_each zones (cleanup_zone token net) s) = inl e.
Proof.
  intros Htoken. revert s. induction zones as [|zone rest IH]; intros s.
  - intros [].
  - simpl for_each. rewrite run_bind.
    pose proof (cleanup_zone_run token net zone s Htoken) as [Hl1 _].
    destruct (net (calls s) (GetRulesets zone.2)) as [r|e'] eqn:Hnet.
    + destruct (cleanup_zone token net zone s) as [[[e1|[]] s1] t1];
        unfold trace_of, value_of in *; simpl in *.
      * rewrite Hl1. by intros [[=]|[]].
      * specialize (IH s1).
        destruct (for_each rest (cleanup_zone token net) s1) as [[v s2] t2].
        simpl in *. rewrite listings_app, Hl1. simpl.
        intros [[=]|Hin]. by apply IH.
    + rewrite (cleanup_zone_raised token net zone s e' Htoken Hnet) in *.
      unfold trace_of, value_of in *. simpl in *.
      by intros [[= _ ->]|[]].
Qed.

(** C8, as the code has it: a listing answered with a status other than 200
    is logged with the zone and the status, counts as no rulesets (the zone
    gets the line "No custom WAF rulesets found" and no DELETE) and raises
    nothing; when every listing is answered so, the clean-up returns.  A
    listing request that raises is not caught: the exception ends the step
    of its zone, and it leaves the clean-up, whichever zone the listing was
    for. *)
Theorem listing_refused_counts_as_no_rulesets :
  (forall (token : option string) (net : world) (zone : string * string)
          (s : state) (r : response),
     truthy token = true ->
     net (calls s) (GetRulesets zone.2) = Responded r ->
     status_code r <> 200 ->
     get_zone_rulesets token net zone.2 s =
       (inr (PList []), mkState (S (calls s)) (rules_file s),
        [Http (GetRulesets zone.2) (Responded r);
         Print (MErrFetching zone.2 (status_code r))]) /\
     cleanup_zone token net zone s =
       (inr tt, mkState (S (calls s)) (rules_file s),
        [Print (MZone zone.1 zone.2);
         Http (GetRulesets zone.2) (Responded r);
         Print (MErrFetching zone.2 (status_code r));
         Print MNoCustom])) /\
  (forall (token : option string) (net : world) (s : state),
     truthy token = true ->
     (forall n zone_id, exists r,
        net n (GetRulesets zone_id) = Responded r /\ status_code r <> 200) ->
     let run := cleanup_existing_rulesets token net s in
     value_of run = inr tt /\
     deletes (trace_of run) = [] /\
     forall zone, In zone ZONE_IDS ->
       exists status,
         status <> 200 /\ In (Print (MErrFetching zone.2 status)) (trace_of run)) /\
  (forall (token : option string) (net : world) (zone : string * string)
          (s : state) (e : exn),
     truthy token = true ->
     net (calls s) (GetRulesets zone.2) = Failed e ->
     value_of (cleanup_zone token net zone s) = inl e /\
     (forall rest, zone :: rest = ZONE_IDS ->
        value_of (cleanup_existing_rulesets token net s) = inl e)) /\
  (forall (token : option string) (net : world) (s : state)
          (zone_id : string) (e : exn),
     truthy token = true ->
     let run := cleanup_existing_rulesets token net s in
     In (zone_id, Failed e) (listings (trace_of run)) ->
     value_of run = inl e).
Proof.
  split; [|split; [|split]].
  - intros token net zone s r Htoken Hnet Hstatus. split.
    + rewrite (get_zone_rulesets_run _ _ _ _ Htoken), Hnet.
      unfold zone_listing. apply Z.eqb_neq in Hstatus. by rewrite Hstatus.
    + by apply cleanup_zone_refused.
  - intros token net s Htoken Hnet run. subst run.
    unfold cleanup_existing_rulesets, ZONE_IDS. rewrite Htoken.
    unfold negb. simpl for_each.
    destruct (Hnet (calls s) "1791cd65881eb3caf7d1a3cb315342a5")
      as (r1 & Hr1 & Hs1).
    destruct (Hnet (S (calls s)) "42e0fad5233017cf842727c41ce3ef89")
      as (r2 & Hr2 & Hs2).
    rewrite run_print_bind, run_bind.
    rewrite (cleanup_zone_refused token net
               ("homieyeng.top", "1791cd65881eb3caf7d1a3cb315342a5")
               s r1 Htoken Hr1 Hs1).
    rewrite run_bind.
    rewrite (cleanup_zone_refused token net
               ("homieyang.dpdns.org", "42e0fad5233017cf842727c41ce3ef89")
               (mkState (S (calls s)) (rules_file s)) r2 Htoken Hr2 Hs2).
    unfold value_of, trace_of. simpl.
    split; [done|]. split; [done|].
    intros zone [<-|[<-|[]]]; simpl.
    + exists (status_code r1). split; [done|]. auto 10.
    + exists (status_code r2). split; [done|]. auto 10.
  - intros token net zone s e Htoken Hnet. split.
    + by rewrite (cleanup_zone_raised token net zone s e Htoken Hnet).
    + intros rest Hzones. unfold cleanup_existing_rulesets.
      rewrite <- Hzones, Htoken.
      unfold negb. simpl for_each. rewrite run_print_bind, run_bind.
      by rewrite (cleanup_zone_raised token net zone s e Htoken Hnet).
  - intros token net s zone_id e Htoken run. subst run.
    unfold cleanup_existing_rulesets. rewrite Htoken. unfold negb.
    rewrite run_print_bind.
    pose proof (cleanup_zones_raise token net ZONE_IDS s zone_id e Htoken)
      as Hraise.
    destruct (for_each ZONE_IDS (cleanup_zone token net) s) as [[v s2] t2].
    exact Hraise.
Qed.

Lemma listing_refused_counts_as_no_rulesets_witness :
  (value_of (cleanup_existing_rulesets (Some "token") forbidden_net fresh)
   = inr tt /\
   deletes (trace_of (cleanup_existing_rulesets (Some "token") forbidden_net
                        fresh))
   = []) /\
  value_of (cleanup_existing_rulesets (Some "token") second_zone_down_net fresh)
  = inl RequestException.
Proof.
  split.
  - destruct (proj1 (proj2 listing_refused_counts_as_no_rulesets)
                (Some "token") forbidden_net fresh eq_refl)
      as (Hvalue & Hnone & _).
    + intros n zone_id. exists (plain_response 403 EmptyString).
      split; [reflexivity|]. discriminate.
    + exact (conj Hvalue Hnone).
  - apply (proj2 (proj2 (proj2 listing_refused_counts_as_no_rulesets))
             (Some "token") second_zone_down_net fresh
             "42e0fad5233017cf842727c41ce3ef89" RequestException eq_refl).
    vm_compute. right. left. reflexivity.
Defined.

(** C8 as stated fails: when the network cannot be reached, the listing of
    the first zone raises [RequestException], nothing is printed about it,
    and the exception leaves the clean-up. *)
Lemma cleanup_transport_failure_propagates :
  cleanup_existing_rulesets (Some "token") unreachable_net fresh =
    (inl RequestException, mkState 1 NoFile,
     [Print MCleaning;
      Print (MZone "homieyeng.top" "1791cd65881eb3caf7d1a3cb315342a5");
      Http (GetRulesets "1791cd65881eb3caf7d1a3cb315342a5")
           (Failed RequestException)]).
Proof. vm_compute. reflexivity. Qed.

(** ** Requests and the rules file *)

Lemma requests_app (t1 t2 : list event) :
  requests (t1 ++ t2) = requests t1 ++ requests t2.
Proof. apply omap_app. Qed.

Lemma asks_ret {A} (a : A) : asks (mret a : M A) [].
Proof. intros s. unfold state_of. simpl. split; [done|]. split; [done|lia]. Qed.

Lemma asks_lift {A} (r : result A) : asks (lift r) [].
Proof. intros s. unfold state_of. simpl. split; [done|]. split; [done|lia]. Qed.

Lemma asks_print (m : msg) : asks (print m) [].
Proof. intros s. unfold state_of. simpl. split; [done|]. split; [done|lia]. Qed.

Lemma asks_http (net : world) (req : request) : asks (http net req) [req].
Proof. intros s. unfold state_of. simpl. split; [done|]. split; [done|lia]. Qed.

(** A computation followed by one that makes no request. *)
Lemma asks_bind {A B} (m : M A) (k : A -> M B) (reqs : list request) :
  asks m reqs -> (forall a, asks (k a) []) -> asks (m ≫= k) reqs.
Proof.
  intros Hm Hk s. rewrite run_bind. specialize (Hm s).
  destruct (m s) as [[[e|a] s1] t1]; [done|].
  specialize (Hk a s1). destruct (k a s1) as [[r s2] t2].
  unfold trace_of, state_of in *. simpl in *.
  destruct Hm as (Hr1 & Hf1 & Hc1), Hk as (Hr2 & Hf2 & Hc2).
  rewrite requests_app, Hr1, Hr2, app_nil_r. split; [done|].
  split; [congruence|]. simpl in Hc2. lia.
Qed.

(** A line printed before a computation. *)
Lemma asks_after_print {B} (m : msg) (k : unit -> M B) (reqs : list request) :
  asks (k tt) reqs -> asks (print m ≫= k) reqs.
Proof.
  intros Hk s. rewrite run_print_bind. specialize (Hk s).
  by destruct (k tt s) as [[r s2] t2].
Qed.

Lemma asks_try_except {A} (body : M A) (handler : exn -> M A)
    (reqs : list request) :
  asks body reqs -> (forall e, asks (handler e) []) ->
  asks (try_except body handler) reqs.
Proof.
  intros Hbody Hhandler s. unfold try_except. specialize (Hbody s).
  destruct (body s) as [[[e|a] s1] t1]; [|done].
  specialize (Hhandler e s1). destruct (handler e s1) as [[r s2] t2].
  unfold trace_of, state_of in *. simpl in *.
  destruct Hbody as (Hr1 & Hf1 & Hc1), Hhandler as (Hr2 & Hf2 & Hc2).
  rewrite requests_app, Hr1, Hr2, app_nil_r. split; [done|].
  split; [congruence|]. simpl in Hc2. lia.
Qed.

Lemma asks_for_each {A} (l : list A) (body : A -> M unit) :
  (forall x, asks (body x) []) -> asks (for_each l body) [].
Proof.
  intros Hbody. induction l as [|x rest IH]; simpl.
  - apply asks_ret.
  - apply asks_bind; [apply Hbody|]. by intros _.
Qed.

Lemma asks_fold_each {A S} (l : list A) (acc : S) (body : S -> A -> M S) :
  (forall acc x, asks (body acc x) []) -> asks (fold_each l acc body) [].
Proof.
  intros Hbody. revert acc. induction l as [|x rest IH]; intros acc; simpl.
  - apply asks_ret.
  - apply asks_bind; [apply Hbody|]. intros acc'. apply IH.
Qed.

Lemma asks_filter_each {A} (l : list A) (test : A -> M bool) :
  (forall x, asks (test x) []) -> asks (filter_each l test) [].
Proof.
  intros Htest. induction l as [|x rest IH]; simpl.
  - apply asks_ret.
  - apply asks_bind; [apply Htest|]. intros keep.
    apply asks_bind; [apply IH|]. intros kept. apply asks_ret.
Qed.

(** Steps that make no request. *)
Ltac no_request :=
  repeat first
    [ apply asks_ret
    | apply asks_lift
    | apply asks_print
    | apply asks_for_each; intros ?
    | apply asks_fold_each; intros ? ?
    | apply asks_filter_each; intros ?
    | apply asks_bind; [|intros ?]
    | match goal with
      | |- asks (if ?b then _ else _) _ => destruct b
      | |- asks (match ?e with _ => _ end) _ => destruct e
      | |- asks (let _ := _ in _) _ => cbv zeta
      end ].

(** The requests of the fetcher. *)
Lemma fetch_asks (key : option string) (net : world) :
  asks (fetch_abuseipdb_asns key net)
       (if truthy key then [GetBlacklist] else []).
Proof.
  unfold fetch_abuseipdb_asns. destruct (truthy key); unfold negb.
  - apply asks_try_except.
    + unfold fetch_body. apply asks_after_print.
      apply asks_bind; [apply asks_http|]. intros response. no_request.
    + intros e. unfold fetch_handler. destruct e; no_request.
  - no_request.
Qed.

(** X1: with a key configured the fetcher makes one request, the GET of the
    blacklist, whatever the network does: there is no second attempt after a
    failure.  It leaves the rules file as it is. *)
Theorem fetch_asks_once (key : option string) (net : world) (s : state) :
  truthy key = true ->
  let run := fetch_abuseipdb_asns key net s in
  requests (trace_of run) = [GetBlacklist] /\
  rules_file (state_of run) = rules_file s /\
  calls (state_of run) = S (calls s).
Proof.
  intros Hkey. destruct (fetch_asks key net s) as (Hr & Hf & Hc).
  rewrite Hkey in Hr, Hc. cbv zeta.
  split; [done|]. split; [done|]. simpl in Hc. lia.
Qed.

Lemma fetch_asks_once_witness :
  requests (trace_of (fetch_abuseipdb_asns (Some "key") unreachable_net fresh))
  = [GetBlacklist].
Proof.
  exact (proj1 (fetch_asks_once (Some "key") unreachable_net fresh eq_refl)).
Defined.

Lemma requests_in_ret {A} (P : request -> Prop) (a : A) :
  requests_in P (mret a : M A).
Proof. intros s. by split. Qed.

Lemma requests_in_lift {A} (P : request -> Prop) (r : result A) :
  requests_in P (lift r).
Proof. intros s. by split. Qed.

Lemma requests_in_print (P : request -> Prop) (m : msg) :
  requests_in P (print m).
Proof. intros s. by split. Qed.

Lemma requests_in_http (P : request -> Prop) (net : world) (req : request) :
  P req -> requests_in P (http net req).
Proof. intros HP s. split; [|done]. simpl. by constructor. Qed.

Lemma requests_in_bind {A B} (P : request -> Prop) (m : M A) (k : A -> M B) :
  requests_in P m -> (forall a, requests_in P (k a)) ->
  requests_in P (m ≫= k).
Proof.
  intros Hm Hk s. rewrite run_bind. specialize (Hm s).
  destruct (m s) as [[[e|a] s1] t1]; [done|].
  specialize (Hk a s1). destruct (k a s1) as [[r s2] t2].
  unfold trace_of, state_of in *. simpl in *.
  destruct Hm as [Hr1 Hf1], Hk as [Hr2 Hf2].
  rewrite requests_app. split; [by apply Forall_app|congruence].
Qed.

Lemma requests_in_for_each {A} (P : request -> Prop) (l : list A)
    (body : A -> M unit) :
  (forall x, In x l -> requests_in P (body x)) ->
  requests_in P (for_each l body).
Proof.
  induction l as [|x rest IH]; intros Hbody; simpl.
  - apply requests_in_ret.
  - apply requests_in_bind; [apply Hbody; by left|].
    intros _. apply IH. intros y Hy. apply Hbody. by right.
Qed.

Lemma requests_in_filter_each {A} (P : request -> Prop) (l : list A)
    (test : A -> M bool) :
  (forall x, requests_in P (test x)) -> requests_in P (filter_each l test).
Proof.
  intros Htest. induction l as [|x rest IH]; simpl.
  - apply requests_in_ret.
  - apply requests_in_bind; [apply Htest|]. intros keep.
    apply requests_in_bind; [apply IH|]. intros kept. apply requests_in_ret.
Qed.

Lemma asks_requests_in {A} (P : request -> Prop) (m : M A)
    (reqs : list request) :
  asks m reqs -> Forall P reqs -> requests_in P m.
Proof. intros Hm HP s. destruct (Hm s) as (-> & Hf & _). by split. Qed.

(** Steps whose requests stay within [P]. *)
Ltac confined :=
  repeat first
    [ apply requests_in_ret
    | apply requests_in_lift
    | apply requests_in_print
    | apply requests_in_http; try done
    | apply requests_in_filter_each; intros ?
    | apply requests_in_for_each; intros ? ?
    | apply requests_in_bind; [|intros ?]
    | match goal with
      | |- requests_in _ (if ?b then _ else _) => destruct b
      | |- requests_in _ (match ?e with _ => _ end) => destruct e
      | |- requests_in _ (let _ := _ in _) => cbv zeta
      end ].

(** The loop over the zones lists a prefix of the zones. *)
Lemma cleanup_zones_listed (token : option string) (net : world)
    (zones : list (string * string)) (s : state) :
  truthy token = true ->
  (listings (trace_of (for_each zones (cleanup_zone token net) s))).*1
    `prefix_of` zones.*2.
Proof.
  intros Htoken. revert s. induction zones as [|zone rest IH]; intros s.
  - done.
  - simpl for_each. rewrite run_bind.
    pose proof (cleanup_zone_run token net zone s Htoken) as [Hl1 _].
    destruct (cleanup_zone token net zone s) as [[[e|[]] s1] t1];
      unfold trace_of in *; simpl in *.
    + rewrite Hl1. simpl. apply prefix_cons, prefix_nil.
    + specialize (IH s1).
      destruct (for_each rest (cleanup_zone token net) s1) as [[r s2] t2].
      simpl in *. rewrite listings_app, Hl1. simpl. by apply prefix_cons.
Qed.

(** The requests of the clean-up go to its zones. *)
Lemma cleanup_confined (token : option string) (net : world) :
  requests_in
    (fun req => exists zone_id,
       zone_of_request req = Some zone_id /\ In zone_id ZONE_IDS.*2)
    (cleanup_existing_rulesets token net).
Proof.
  unfold cleanup_existing_rulesets.
  destruct (negb (truthy token)); [apply requests_in_print|].
  apply requests_in_bind; [apply requests_in_print|]. intros _.
  apply requests_in_for_each. intros zone Hzone.
  assert (In zone.2 ZONE_IDS.*2) as Hzone'.
  { apply in_map_iff. by exists zone. }
  unfold cleanup_zone, get_zone_rulesets, is_custom_zone_ruleset,
    cleanup_ruleset, delete_ruleset.
  confined; eexists; (split; [reflexivity|done]).
Qed.

(** X2: in every run of the clean-up, returning or not, each request is the
    listing of a zone of [ZONE_IDS] or a DELETE in such a zone, the zones
    are listed in the order of [ZONE_IDS], each at most once, and the rules
    file is left as it is. *)
Theorem cleanup_stays_in_its_zones
    (token : option string) (net : world) (s : state) :
  let run := cleanup_existing_rulesets token net s in
  Forall (fun req => exists zone_id,
            zone_of_request req = Some zone_id /\ In zone_id ZONE_IDS.*2)
         (requests (trace_of run)) /\
  (listings (trace_of run)).*1 `prefix_of` ZONE_IDS.*2 /\
  rules_file (state_of run) = rules_file s.
Proof.
  cbv zeta.
  destruct (cleanup_confined token net s) as [Hreqs Hfile].
  split; [done|]. split; [|done].
  unfold cleanup_existing_rulesets.
  destruct (truthy token) eqn:Htoken; unfold negb; [|apply prefix_nil].
  rewrite run_print_bind.
  pose proof (cleanup_zones_listed token net ZONE_IDS s Htoken) as Hprefix.
  by destruct (for_each ZONE_IDS (cleanup_zone token net) s) as [[r s2] t2].
Qed.

(** [delete_ruleset] makes one request, the DELETE of the ruleset in the
    zone.  It returns [True] on a 200 or a 204, [False] on any other status,
    and raises what the request raises. *)
Lemma delete_ruleset_reports_status
    (net : world) (zone_id : string) (ruleset_id : pyval) (s : state) :
  let run := delete_ruleset net zone_id ruleset_id s in
  let out := net (calls s) (DeleteRuleset zone_id ruleset_id) in
  requests (trace_of run) = [DeleteRuleset zone_id ruleset_id] /\
  value_of run =
    match out with
    | Failed e => inl e
    | Responded r =>
        inr (bool_decide (status_code r = 200 \/ status_code r = 204))
    end /\
  trace_of run =
    Http (DeleteRuleset zone_id ruleset_id) out ::
    match out with
    | Failed e => []
    | Responded r =>
        if bool_decide (status_code r = 200 \/ status_code r = 204)
        then [Print (MDeleted ruleset_id)]
        else [Print (MDeleteFailed ruleset_id (status_code r))]
    end.
Proof.
  cbv zeta. unfold delete_ruleset. unfold_run.
  destruct (net (calls s) (DeleteRuleset zone_id ruleset_id)) as [r|e];
    [|done]. simpl.
  destruct (Z.eqb_spec (status_code r) 200) as [H200|H200];
    destruct (Z.eqb_spec (status_code r) 204) as [H204|H204]; simpl;
    case_bool_decide; try done; lia.
Qed.

(** X3: without a token [get_zone_rulesets] makes no request, prints a
    warning and returns the empty list.  With a token it makes one request,
    the listing of the zone; on a 200 it returns the [result] of the body,
    the empty list when the body has no [result], and it raises
    [AttributeError] when the body is not an object, what [json()] raises
    when the body is not JSON, and what the request raises. *)
Theorem get_zone_rulesets_cases
    (token : option string) (net : world) (zone_id : string) (s : state) :
  let run := get_zone_rulesets token net zone_id s in
  let out := net (calls s) (GetRulesets zone_id) in
  (truthy token = false -> run = (inr (PList []), s, [Print MNoToken])) /\
  (truthy token = true ->
     requests (trace_of run) = [GetRulesets zone_id] /\
     (forall e, out = Failed e -> value_of run = inl e) /\
     (forall r, out = Responded r -> status_code r = 200 ->
        (forall e, json r = inl e -> value_of run = inl e) /\
        (forall d, json r = inr (PDict d) ->
           value_of run = inr (default (PList []) (d !! "result"))) /\
        (forall body, json r = inr body -> (forall d, body <> PDict d) ->
           value_of run = inl AttributeError))).
Proof.
  cbv zeta. split.
  - intros Htoken. unfold get_zone_rulesets. rewrite Htoken. simpl.
    by destruct s.
  - intros Htoken. rewrite (get_zone_rulesets_run _ _ _ _ Htoken).
    unfold value_of, trace_of. simpl. split.
    { destruct (net (calls s) (GetRulesets zone_id)) as [r|e]; [|done].
      by destruct (negb (status_code r =? 200)). }
    split.
    { by intros e ->. }
    intros r -> Hstatus. unfold zone_listing. rewrite Hstatus. simpl.
    split; [by intros e ->|]. split; [by intros d ->|].
    intros body -> Hbody. destruct body; try done. by destruct (Hbody d).
Qed.

Lemma get_zone_rulesets_cases_witness :
  get_zone_rulesets None unreachable_net "zone" fresh =
    (inr (PList []), fresh, [Print MNoToken]) /\
  value_of (get_zone_rulesets (Some "token")
              (always (Responded (json_response 200 (PDict ∅)))) "zone" fresh)
  = inr (PList []).
Proof.
  split.
  - exact (proj1 (get_zone_rulesets_cases None unreachable_net "zone" fresh)
             eq_refl).
  - destruct (proj2 (get_zone_rulesets_cases (Some "token")
                       (always (Responded (json_response 200 (PDict ∅))))
                       "zone" fresh) eq_refl) as (_ & _ & H).
    destruct (H (json_response 200 (PDict ∅)) eq_refl eq_refl) as (_ & Hd & _).
    exact (Hd ∅ eq_refl).
Defined.

(** ** Runs of the clean-up that return *)

Lemma for_each_returns {A} (l : list A) (body : A -> M unit) :
  (forall x, In x l -> forall s, value_of (body x s) = inr tt) ->
  forall s, value_of (for_each l body s) = inr tt.
Proof.
  induction l as [|x rest IH]; intros Hbody s; [done|].
  simpl for_each. rewrite run_bind.
  pose proof (Hbody x (or_introl eq_refl) s) as Hx.
  destruct (body x s) as [[[e|[]] s1] t1]; [done|].
  assert (forall y, In y rest -> forall s, value_of (body y s) = inr tt)
    as Hrest by (intros y Hy; apply Hbody; by right).
  specialize (IH Hrest s1).
  by destruct (for_each rest body s1) as [[r s2] t2].
Qed.

(** The step of a readable ruleset returns when its DELETE, if any, is
    answered. *)
Lemma cleanup_ruleset_returns (net : world) (zone_id : string) (rs : pyval)
    (s : state) :
  readable_ruleset rs ->
  (forall n req, exists r, net n req = Responded r) ->
  value_of (cleanup_ruleset net zone_id rs s) = inr tt.
Proof.
  intros (d & name & id & -> & Hname & Hid) Hnet.
  unfold cleanup_ruleset. rewrite run_lift_bind. simpl py_getitem.
  rewrite Hname, run_lift_bind, Hid, run_print_bind, run_lift_bind.
  simpl py_lower. cbv beta iota.
  destruct (existsb (fun keyword => contains keyword (lower name))
                    managed_keywords); [|done].
  unfold delete_ruleset. unfold_run.
  destruct (Hnet (calls s) (DeleteRuleset zone_id id)) as [r ->]. simpl.
  by destruct ((status_code r =? 200) || (status_code r =? 204)).
Qed.

Lemma readable_custom_test (rs : pyval) :
  readable_ruleset rs -> exists b, custom_test rs = inr b.
Proof.
  intros (d & name & id & -> & _ & _). unfold custom_test. simpl.
  destruct (py_eq_str _ _); eauto.
Qed.

(** X4: with a token, on a network that answers every request and whose
    listings are arrays of rulesets with a string name and an id, the
    clean-up returns: in particular a DELETE that is refused (any status)
    does not stop it. *)
Theorem cleanup_returns_when_answered
    (token : option string) (net : world) (s : state) :
  truthy token = true ->
  answers_listings net ->
  value_of (cleanup_existing_rulesets token net s) = inr tt.
Proof.
  intros Htoken Hnet.
  assert (forall n req, exists r, net n req = Responded r) as Hanswer.
  { intros n req. destruct (Hnet n req) as (r & Hr & _). eauto. }
  unfold cleanup_existing_rulesets. rewrite Htoken. unfold negb.
  rewrite run_print_bind.
  assert (forall s0, value_of (for_each ZONE_IDS (cleanup_zone token net) s0)
                     = inr tt) as Hloop.
  { apply for_each_returns. intros zone _ s0. unfold cleanup_zone.
    rewrite run_print_bind, run_bind, (get_zone_rulesets_run _ _ _ _ Htoken).
    destruct (Hnet (calls s0) (GetRulesets zone.2)) as (r & Hr & Hlisting).
    rewrite Hr. unfold zone_listing.
    destruct (status_code r =? 200) eqn:Hstatus; simpl negb; cbv iota;
      [|done].
    apply Z.eqb_eq in Hstatus.
    destruct (Hlisting zone.2 eq_refl Hstatus)
      as (d & listed & -> & Hresult & Hreadable).
    simpl py_get. rewrite Hresult, run_lift_bind. simpl py_iter.
    cbv beta iota.
    rewrite run_bind, (filter_each_pure _ _ is_custom_zone_ruleset_pure).
    rewrite filter_result_total
      by (eapply Forall_impl; [exact Hreadable|apply readable_custom_test]).
    set (custom := List.filter _ listed).
    assert (Forall readable_ruleset custom) as Hcustom.
    { apply List.Forall_forall. intros rs [Hrs _]%filter_In.
      rewrite List.Forall_forall in Hreadable. by apply Hreadable. }
    destruct custom as [|rs custom]; [done|].
    rewrite run_print_bind.
    pose proof (for_each_returns (rs :: custom) (cleanup_ruleset net zone.2))
      as Hinner.
    specialize (Hinner (fun rs' Hin s1 =>
      cleanup_ruleset_returns net zone.2 rs' s1
        (proj1 (List.Forall_forall _ _) Hcustom rs' Hin) Hanswer)
      (mkState (S (calls s0)) (rules_file s0))).
    by destruct (for_each (rs :: custom) (cleanup_ruleset net zone.2) _)
      as [[v s2] t2]. }
  specialize (Hloop s).
  by destruct (for_each ZONE_IDS (cleanup_zone token net) s) as [[v s2] t2].
Qed.

Lemma cleanup_returns_when_answered_witness :
  value_of (cleanup_existing_rulesets (Some "token") refusing_net fresh)
  = inr tt.
Proof.
  apply (cleanup_returns_when_answered (Some "token") refusing_net fresh);
    [reflexivity|].
  intros n req. destruct req as [|zone_id|zone_id ruleset_id].
  - eexists. split; [reflexivity|]. discriminate.
  - unfold refusing_net, sample_net.
    destruct (String.eqb zone_id "1791cd65881eb3caf7d1a3cb315342a5").
    + eexists. split; [reflexivity|]. intros _ _ _.
      eexists _, _. split; [reflexivity|]. split; [vm_compute; reflexivity|].
      repeat constructor; eexists _, _, _;
        (split; [reflexivity|]); split; vm_compute; reflexivity.
    + eexists. split; [reflexivity|]. intros _ _ _.
      eexists _, _. split; [reflexivity|]. split; [vm_compute; reflexivity|].
      constructor.
  - eexists. split; [reflexivity|]. discriminate.
Defined.

(** ** The country statistics *)

Lemma py_key_eq_sym (a b : pyval) : py_key_eq a b = py_key_eq b a.
Proof.
  destruct a as [|x|x|x|x|x], b as [|y|y|y|y|y]; simpl; try done.
  - by destruct x, y.
  - apply Z.eqb_sym.
  - apply String.eqb_sym.
Qed.

Lemma bump_total (country : pyval) (stats : list (pyval * nat)) :
  total_count (bump country stats) = S (total_count stats).
Proof.
  induction stats as [|[k n] rest IH]; simpl; [done|].
  destruct (py_key_eq k country); simpl; [done|]. rewrite IH. lia.
Qed.

Lemma bump_positive (country : pyval) (stats : list (pyval * nat)) :
  Forall (fun p => (1 <= p.2)%nat) stats ->
  Forall (fun p => (1 <= p.2)%nat) (bump country stats).
Proof.
  induction 1 as [|[k n] rest Hk Hrest IH]; simpl.
  - constructor; [simpl; lia|constructor].
  - destruct (py_key_eq k country).
    + constructor; [simpl in *; lia|done].
    + constructor; [done|exact IH].
Qed.

Lemma bump_apart (key country : pyval) (stats : list (pyval * nat)) :
  py_key_eq key country = false ->
  Forall (fun q => py_key_eq key q.1 = false) stats ->
  Forall (fun q => py_key_eq key q.1 = false) (bump country stats).
Proof.
  intros Hkey. induction 1 as [|[k n] rest Hk Hrest IH]; simpl.
  - by repeat constructor.
  - destruct (py_key_eq k country); by constructor.
Qed.

Lemma bump_distinct (country : pyval) (stats : list (pyval * nat)) :
  distinct_keys stats -> distinct_keys (bump country stats).
Proof.
  induction stats as [|[k n] rest IH]; simpl.
  - by split.
  - intros [Hk Hrest]. destruct (py_key_eq k country) eqn:Hkc; simpl.
    + by split.
    + split; [by apply bump_apart|by apply IH].
Qed.

(** The loop of lines 107-109 only computes. *)
Lemma count_entries_run (items : list pyval) (acc stats : list (pyval * nat))
    (s s' : state) (t : list event) :
  fold_each items acc count_entry s = (inr stats, s', t) ->
  s' = s /\ t = [] /\
  total_count stats = (total_count acc + length items)%nat /\
  (distinct_keys acc -> distinct_keys stats) /\
  (Forall (fun p => (1 <= p.2)%nat) acc ->
   Forall (fun p => (1 <= p.2)%nat) stats).
Proof.
  revert acc s. induction items as [|entry rest IH]; intros acc s; simpl.
  - intros [= <- <- <-]. repeat split; try done; simpl; lia.
  - rewrite run_bind. unfold count_entry at 1. rewrite run_lift_bind.
    destruct (py_get entry "countryCode" (PStr "Unknown")) as [e|country];
      [done|].
    unfold count_country, lift at 1.
    destruct (py_hashable country); [|done].
    destruct (fold_each rest (bump country acc) count_entry s)
      as [[r s2] t2] eqn:Hrest.
    intros [= -> -> <-].
    destruct (IH _ _ Hrest) as (-> & -> & Htotal & Hdistinct & Hpositive).
    rewrite Htotal, bump_total. repeat split; try done.
    + simpl. lia.
    + intros Hacc. by apply Hdistinct, bump_distinct.
    + intros Hacc. by apply Hpositive, bump_positive.
Qed.

(** X5: when the loop that counts the countries (lines 106-109) returns,
    every entry has been counted once: the counts add up to the number of
    entries, each is at least 1, and no country appears twice.  The loop
    prints nothing and makes no request. *)
Theorem country_counts_add_up
    (items : list pyval) (stats : list (pyval * nat)) (s s' : state)
    (t : list event) :
  fold_each items [] count_entry s = (inr stats, s', t) ->
  total_count stats = length items /\
  Forall (fun p => (1 <= p.2)%nat) stats /\
  distinct_keys stats /\
  s' = s /\ t = [].
Proof.
  intros (-> & -> & Htotal & Hdistinct & Hpositive)%count_entries_run.
  split; [exact Htotal|]. split; [by apply Hpositive|].
  split; [by apply Hdistinct|done].
Qed.

Lemma country_counts_add_up_witness :
  total_count (bump (PStr "DE") (bump (PStr "Unknown") (bump (PStr "RU")
                 (bump (PStr "DE") (bump (PStr "RU") []))))) = 5%nat.
Proof.
  refine (proj1 (country_counts_add_up mixed_feed _ fresh fresh [] _)).
  vm_compute. reflexivity.
Defined.

(** ** The sort of line 112 *)

Lemma insert_desc_perm (x : pyval * nat) (l : list (pyval * nat)) :
  insert_desc x l ≡ₚ x :: l.
Proof.
  induction l as [|y rest IH]; simpl; [done|].
  destruct (y.2 <? x.2)%nat; [done|]. rewrite IH. apply Permutation_swap.
Qed.

Lemma insert_desc_descending (x : pyval * nat) (l : list (pyval * nat)) :
  descending l -> descending (insert_desc x l).
Proof.
  unfold descending. induction 1 as [|y rest Hrest IH Hy]; simpl.
  - by repeat constructor.
  - destruct (Nat.ltb_spec y.2 x.2) as [Hlt|Hge].
    + constructor; [by constructor|]. constructor; [lia|].
      eapply Forall_impl; [exact Hy|]. simpl. intros q Hq. lia.
    + constructor; [done|].
      rewrite (insert_desc_perm x rest). by constructor.
Qed.

Lemma with_count_above (n bound : nat) (l : list (pyval * nat)) :
  Forall (fun q => (q.2 <= bound)%nat) l -> (bound < n)%nat ->
  with_count n l = [].
Proof.
  intros Hl Hn. unfold with_count.
  induction Hl as [|q rest Hq Hrest IH]; simpl; [done|].
  destruct (Nat.eqb_spec q.2 n); [lia|done].
Qed.

Lemma insert_desc_with_count (n : nat) (x : pyval * nat)
    (l : list (pyval * nat)) :
  descending l ->
  with_count n (insert_desc x l) = with_count n l ++ with_count n [x].
Proof.
  unfold descending.
  induction 1 as [|y rest Hrest IH Hy]; simpl; [done|].
  destruct (Nat.ltb_spec y.2 x.2) as [Hlt|Hge].
  - unfold with_count in *. simpl.
    destruct (Nat.eqb_spec x.2 n) as [Hx|Hx]; [|by rewrite app_nil_r].
    destruct (Nat.eqb_spec y.2 n) as [Hyn|Hyn]; [lia|].
    pose proof (with_count_above n y.2 rest Hy) as Hnone.
    unfold with_count in Hnone. rewrite Hnone by lia. done.
  - unfold with_count in *. simpl. rewrite IH.
    by destruct (y.2 =? n)%nat.
Qed.

Lemma sorted_desc_from (l acc : list (pyval * nat)) :
  descending acc ->
  let sorted := fold_left (fun acc x => insert_desc x acc) l acc in
  sorted ≡ₚ acc ++ l /\
  descending sorted /\
  forall n, with_count n sorted = with_count n acc ++ with_count n l.
Proof.
  revert acc. induction l as [|x rest IH]; intros acc Hacc; simpl.
  - rewrite app_nil_r. repeat split; try done.
    intros n. by rewrite app_nil_r.
  - destruct (IH (insert_desc x acc) (insert_desc_descending x acc Hacc))
      as (Hperm & Hdesc & Hstable).
    split; [|split; [done|]].
    + rewrite Hperm, insert_desc_perm. simpl. apply Permutation_middle.
    + intros n. rewrite Hstable, (insert_desc_with_count n x acc Hacc).
      unfold with_count. simpl. rewrite <- app_assoc. f_equal.
      by destruct (x.2 =? n)%nat.
Qed.

Lemma sorted_desc_descending (stats : list (pyval * nat)) :
  descending (sorted_desc stats).
Proof.
  destruct (sorted_desc_from stats []) as (_ & Hdesc & _); [constructor|].
  exact Hdesc.
Qed.

(** X6: the sort of line 112 is a stable sort by falling count: its result
    is a rearrangement of the statistics, the counts do not increase along
    it, and the countries with a same count keep the order they had. *)
Theorem sorted_desc_sorts (stats : list (pyval * nat)) :
  sorted_desc stats ≡ₚ stats /\
  descending (sorted_desc stats) /\
  forall n, with_count n (sorted_desc stats) = with_count n stats.
Proof.
  destruct (sorted_desc_from stats []) as (Hperm & Hdesc & Hstable).
  { constructor. }
  split; [exact Hperm|]. split; [exact Hdesc|exact Hstable].
Qed.

(** ** The lines of the fetcher *)

Lemma for_each_print {A} (l : list A) (line : A -> msg) (s : state) :
  for_each l (fun x => print (line x)) s = (inr tt, s, Print ∘ line <$> l).
Proof.
  induction l as [|x rest IH]; [done|].
  simpl for_each. rewrite run_print_bind, IH. reflexivity.
Qed.

Lemma count_entries_tally (items : list pyval) (acc : list (pyval * nat))
    (s : state) :
  Forall countable_entry items ->
  fold_each items acc count_entry s =
    (inr (fold_left (fun stats entry => bump (country_of entry) stats)
                    items acc), s, []).
Proof.
  intros Hitems. revert acc.
  induction Hitems as [|entry rest [[d ->] Hhash] _ IH]; intros acc; [done|].
  simpl fold_each. rewrite run_bind. unfold count_entry at 1.
  rewrite run_lift_bind. simpl py_get. cbv beta iota.
  unfold count_country, lift at 1. simpl in Hhash. rewrite Hhash.
  rewrite IH. reflexivity.
Qed.

(** X7: on a 200 whose [data] is an array of entries that can be counted,
    and that is not empty, the fetcher prints the number of entries, then
    one line for each of the first ten countries of the statistics sorted by
    falling count, and the warning of line 123 exactly when "RU", "CN", "KP"
    or "IR" is among the first five; it then returns the catalogue. *)
Theorem fetch_reports_top_countries
    (key : option string) (net : world) (s : state) (r : response)
    (d : gmap string pyval) (items : list pyval) :
  truthy key = true ->
  net (calls s) GetBlacklist = Responded r ->
  status_code r = 200 ->
  json r = inr (PDict d) ->
  d !! "data" = Some (PList items) ->
  items <> [] ->
  Forall countable_entry items ->
  let top := take 10 (sorted_desc (tally items)) in
  fetch_abuseipdb_asns key net s =
    (inr get_known_bad_asns,
     mkState (S (calls s)) (rules_file s),
     [Print MAttempt; Http GetBlacklist (Responded r); Print MCallOk;
      Print (MReceived (length items)); Print MTopCountries] ++
     ((fun c => Print (MCountry c.1 c.2)) <$> top) ++
     [Print MCombining] ++
     (if high_risk_on_top top then [Print MHighRisk] else []) ++
     [Print (MUsing 32)]).
Proof.
  intros Hkey Hnet Hstatus Hjson Hdata Hitems Hcountable top.
  unfold fetch_abuseipdb_asns. rewrite Hkey. unfold negb, try_except.
  unfold fetch_body. rewrite run_print_bind, run_bind.
  unfold http at 1. rewrite Hnet. cbv beta iota zeta. rewrite Hstatus.
  change (200 =? 200) with true. cbv iota.
  rewrite run_print_bind, run_lift_bind, Hjson.
  rewrite run_lift_bind. simpl py_contains. rewrite Hdata.
  rewrite bool_decide_eq_true_2 by eauto.
  rewrite run_bind, run_lift_bind. simpl py_getitem. rewrite Hdata.
  rewrite run_lift_bind. simpl py_len.
  destruct items as [|entry items]; [done|].
  unfold mret at 1, M_ret at 1, ret at 1. cbv beta iota.
  change (0 <? length (entry :: items))%nat with true. cbv iota.
  rewrite run_lift_bind. simpl py_getitem. rewrite Hdata.
  rewrite run_lift_bind. simpl py_len. cbv beta iota.
  rewrite run_print_bind, run_lift_bind. simpl py_iter. cbv beta iota.
  rewrite run_bind.
  change (fold_each (entry :: items) [] _) with
    (fold_each (entry :: items) [] count_entry).
  rewrite (count_entries_tally _ _ _ Hcountable).
  fold (tally (entry :: items)).
  rewrite run_print_bind. cbv zeta. fold top.
  rewrite run_bind, for_each_print, run_print_bind.
  fold (high_risk_on_top top).
  destruct (high_risk_on_top top); reflexivity.
Qed.

Lemma fetch_reports_top_countries_witness :
  country_lines
    (trace_of (fetch_abuseipdb_asns (Some "key")
                 (always (Responded (json_response 200
                            (PDict {["data" := PList mixed_feed]}))))
                 fresh))
  = [(PStr "RU", 2%nat); (PStr "DE", 2%nat); (PStr "Unknown", 1%nat)].
Proof.
  assert (({["data" := PList mixed_feed]} : gmap string pyval) !! "data"
          = Some (PList mixed_feed)) as Hdata by (vm_compute; reflexivity).
  assert (Forall countable_entry mixed_feed) as Hcountable.
  { repeat constructor; try (eexists; reflexivity); vm_compute; reflexivity. }
  rewrite (fetch_reports_top_countries (Some "key") _ fresh
             (json_response 200 (PDict {["data" := PList mixed_feed]}))
             {["data" := PList mixed_feed]} mixed_feed
             eq_refl eq_refl eq_refl eq_refl Hdata
             ltac:(discriminate) Hcountable).
  vm_compute. reflexivity.
Defined.

Lemma country_lines_app (t1 t2 : list event) :
  country_lines (t1 ++ t2) = country_lines t1 ++ country_lines t2.
Proof. apply omap_app. Qed.

Lemma no_lines_ret {A} (a : A) : lines_in (fun l => l = []) (mret a : M A).
Proof. by intros s. Qed.

Lemma no_lines_lift {A} (r : result A) : lines_in (fun l => l = []) (lift r).
Proof. by intros s. Qed.

Lemma no_lines_http (net : world) (req : request) :
  lines_in (fun l => l = []) (http net req).
Proof. by intros s. Qed.

Lemma no_lines_print (m : msg) :
  (forall country count, m <> MCountry country count) ->
  lines_in (fun l => l = []) (print m).
Proof. intros Hm s. simpl. destruct m; try done. by destruct (Hm country count). Qed.

(** A computation without country lines before one with them. *)
Lemma lines_in_after {A B} (P : list (pyval * nat) -> Prop) (m : M A)
    (k : A -> M B) :
  P [] -> lines_in (fun l => l = []) m -> (forall a, lines_in P (k a)) ->
  lines_in P (m ≫= k).
Proof.
  intros Hnil Hm Hk s. rewrite run_bind. specialize (Hm s).
  destruct (m s) as [[[e|a] s1] t1]; unfold trace_of in *; simpl in *.
  - by rewrite Hm.
  - specialize (Hk a s1). destruct (k a s1) as [[r s2] t2].
    simpl in *. by rewrite country_lines_app, Hm.
Qed.

(** A computation with country lines before one without them. *)
Lemma lines_in_before {A B} (P : list (pyval * nat) -> Prop) (m : M A)
    (k : A -> M B) :
  lines_in P m -> (forall a, lines_in (fun l => l = []) (k a)) ->
  lines_in P (m ≫= k).
Proof.
  intros Hm Hk s. rewrite run_bind. specialize (Hm s).
  destruct (m s) as [[[e|a] s1] t1]; unfold trace_of in *; simpl in *; [done|].
  specialize (Hk a s1). destruct (k a s1) as [[r s2] t2].
  simpl in *. by rewrite country_lines_app, Hk, app_nil_r.
Qed.

Lemma no_lines_fold_each {A S} (l : list A) (acc : S) (body : S -> A -> M S) :
  (forall acc x, lines_in (fun l => l = []) (body acc x)) ->
  lines_in (fun l => l = []) (fold_each l acc body).
Proof.
  intros Hbody. revert acc. induction l as [|x rest IH]; intros acc; simpl.
  - apply no_lines_ret.
  - apply lines_in_after; [done|apply Hbody|]. intros acc'. apply IH.
Qed.

Lemma lines_in_try_except {A} (P : list (pyval * nat) -> Prop) (body : M A)
    (handler : exn -> M A) :
  lines_in P body -> (forall e, lines_in (fun l => l = []) (handler e)) ->
  lines_in P (try_except body handler).
Proof.
  intros Hbody Hhandler s. unfold try_except. specialize (Hbody s).
  destruct (body s) as [[[e|a] s1] t1]; unfold trace_of in *; simpl in *;
    [|done].
  specialize (Hhandler e s1). destruct (handler e s1) as [[r s2] t2].
  simpl in *. by rewrite country_lines_app, Hhandler, app_nil_r.
Qed.

Lemma country_lines_printed (l : list (pyval * nat)) :
  country_lines (Print ∘ (fun c => MCountry c.1 c.2) <$> l) = l.
Proof.
  induction l as [|[country count] rest IH]; [done|].
  unfold country_lines. simpl. f_equal. exact IH.
Qed.

Lemma descending_take (n : nat) (l : list (pyval * nat)) :
  descending l -> descending (take n l).
Proof.
  unfold descending. intros Hl. revert n.
  induction Hl as [|x rest Hrest IH Hx]; intros [|n]; simpl;
    try by constructor.
  constructor; [apply IH|]. by apply Forall_take.
Qed.

Lemma lines_in_none {A} (P : list (pyval * nat) -> Prop) (m : M A) :
  P [] -> lines_in (fun l => l = []) m -> lines_in P m.
Proof. intros Hnil Hm s. by rewrite (Hm s). Qed.

(** Steps that print no country line. *)
Ltac no_lines :=
  repeat first
    [ apply no_lines_ret
    | apply no_lines_lift
    | apply no_lines_http
    | apply no_lines_print; discriminate
    | apply no_lines_fold_each; intros ? ?
    | apply lines_in_after; [reflexivity| |intros ?]
    | match goal with
      | |- lines_in _ (if ?b then _ else _) => destruct b
      | |- lines_in _ (let _ := _ in _) => cbv zeta
      end ].

(** X8: whatever the key and the network, a run of the fetcher prints at
    most ten country lines, and their counts do not increase from one line
    to the next. *)
Theorem fetch_prints_at_most_ten_countries
    (key : option string) (net : world) (s : state) :
  let lines := country_lines (trace_of (fetch_abuseipdb_asns key net s)) in
  (length lines <= 10)%nat /\ descending lines.
Proof.
  set (P := fun lines : list (pyval * nat) =>
              (length lines <= 10)%nat /\ descending lines).
  assert (P []) as Hnil by (split; [simpl; lia|constructor]).
  assert (lines_in P (fetch_abuseipdb_asns key net)) as Hlines.
  { unfold fetch_abuseipdb_asns. destruct (negb (truthy key)).
    { intros s0. exact Hnil. }
    apply lines_in_try_except; [|intros e; destruct e; no_lines].
    unfold fetch_body.
    apply lines_in_after; [done|no_lines|]. intros _.
    apply lines_in_after; [done|no_lines|]. intros response.
    destruct (status_code response =? 200).
    2: { apply lines_in_none; [done|]. no_lines. }
    apply lines_in_after; [done|no_lines|]. intros _.
    apply lines_in_after; [done|no_lines|]. intros data.
    apply lines_in_after; [done|no_lines|]. intros has_data.
    apply lines_in_after; [done|no_lines|]. intros nonempty.
    destruct nonempty.
    2: { apply lines_in_none; [done|]. no_lines. }
    apply lines_in_after; [done|no_lines|]. intros entries.
    apply lines_in_after; [done|no_lines|]. intros n.
    apply lines_in_after; [done|no_lines|]. intros _.
    apply lines_in_after; [done|no_lines|]. intros items.
    apply lines_in_after; [done|no_lines|]. intros country_stats.
    apply lines_in_after; [done|no_lines|]. intros _. cbv zeta.
    apply lines_in_before; [|intros _; no_lines].
    intros s0. rewrite for_each_print. unfold trace_of. simpl snd.
    rewrite country_lines_printed. split.
    - rewrite length_take. lia.
    - apply descending_take, sorted_desc_descending. }
  exact (Hlines s).
Qed.

(** ** Failures of the updater *)

(** The run of the updater, case by case. *)
Lemma update_rules_yaml_steps (asns : list Z) (s : state) :
  update_rules_yaml asns s =
  match rules_file s with
  | NoFile => (inl FileNotFoundError, s, [])
  | BadYaml => (inl YAMLError, s, [])
  | Unreadable e => (inl e, s, [])
  | Yaml data =>
      match py_getitem data "rules" with
      | inl e => (inl e, s, [])
      | inr old =>
          match py_iter old with
          | inl e => (inl e, s, [])
          | inr rules =>
              match filter_result keep_test rules with
              | inl e => (inl e, s, [])
              | inr kept =>
                  match data with
                  | PDict d =>
                      (inr tt,
                       mkState (calls s)
                         (Yaml (PDict (<["rules" :=
                                  PList (kept ++ appended_rules asns)]> d))),
                       [Print (update_line asns)])
                  | _ => (inl TypeError, s, [])
                  end
              end
          end
      end
  end.
Proof.
  destruct (rules_file s) as [| |e0|data] eqn:Hfile.
  - unfold update_rules_yaml. rewrite run_bind. unfold load_yaml.
    by rewrite Hfile.
  - unfold update_rules_yaml. rewrite run_bind. unfold load_yaml.
    by rewrite Hfile.
  - unfold update_rules_yaml. rewrite run_bind. unfold load_yaml.
    by rewrite Hfile.
  - destruct (py_getitem data "rules") as [e|old] eqn:Hold.
    { unfold update_rules_yaml. rewrite run_bind. unfold load_yaml at 1.
      by rewrite Hfile, run_lift_bind, Hold. }
    destruct (py_iter old) as [e|rules] eqn:Hiter.
    { unfold update_rules_yaml. rewrite run_bind. unfold load_yaml at 1.
      by rewrite Hfile, run_lift_bind, Hold, run_lift_bind, Hiter. }
    destruct (filter_result keep_test rules) as [e|kept] eqn:Hkept.
    { unfold update_rules_yaml. rewrite run_bind. unfold load_yaml at 1.
      rewrite Hfile, run_lift_bind, Hold, run_lift_bind, Hiter.
      by rewrite run_bind, (filter_each_pure _ _ not_asn_rule_pure), Hkept. }
    destruct data as [| | | | |d]; try done. simpl in Hold.
    destruct (d !! "rules") as [old'|] eqn:Hrules; [|done].
    injection Hold as ->.
    by apply (update_rules_yaml_run asns s d old rules kept).
Qed.

(** On a document it does not accept the updater raises at the read or in
    the comprehension (lines 159-163), before the line it prints and before
    the file is opened for writing. *)
Lemma update_rejected (asns : list Z) (s : state) :
  ~ accepted_document (rules_file s) ->
  exists e, update_rules_yaml asns s = (inl e, s, []).
Proof.
  intros Hnot. rewrite update_rules_yaml_steps.
  destruct (rules_file s) as [| |e0|data] eqn:Hfile; eauto.
  destruct (py_getitem data "rules") as [e'|old] eqn:Hold; eauto.
  destruct (py_iter old) as [e'|rules] eqn:Hiter; eauto.
  destruct (filter_result keep_test rules) as [e'|kept] eqn:Hkept; eauto.
  destruct data as [| | | | |d]; eauto.
  destruct Hnot. exists d, old, rules. split; [done|].
  simpl in Hold. destruct (d !! "rules") as [old'|]; [|done].
  injection Hold as ->. split; [done|]. split; [done|].
  apply filter_result_returns in Hkept as [Hall _].
  eapply Forall_impl; [exact Hall|]. intros rule [b Hb].
  revert Hb. unfold keep_test. destruct (asn_test rule); [done|eauto].
Qed.

(** X9: on a document it does not accept (no file, a file that cannot be
    read, a document that is not a mapping or has no [rules], a rule whose
    name cannot be searched) the updater raises from lines 159-163: it has
    printed nothing and has not opened the file for writing, so the file
    and the state are as before. *)
Theorem update_failure_leaves_file (asns : list Z) (s : state) :
  ~ accepted_document (rules_file s) ->
  exists e, update_rules_yaml asns s = (inl e, s, []).
Proof. apply update_rejected. Qed.

Lemma update_failure_leaves_file_witness :
  exists e,
    update_rules_yaml [64512] (mkState 3 (Yaml headless_document)) =
      (inl e, mkState 3 (Yaml headless_document), []).
Proof.
  apply (update_failure_leaves_file [64512]
           (mkState 3 (Yaml headless_document))).
  intros (d & old & rules & Hfile & Hold & _).
  simpl in Hfile. injection Hfile as <-. vm_compute in Hold. discriminate.
Defined.

(** A comprehension raises what its first failing test raises. *)
Lemma filter_result_raises {A} (f : A -> result bool) (before after : list A)
    (x : A) (e : exn) :
  Forall (fun y => exists b, f y = inr b) before ->
  f x = inl e ->
  filter_result f (before ++ x :: after) = inl e.
Proof.
  intros Hbefore Hx. induction Hbefore as [|y before [b Hb] _ IH]; simpl.
  - by rewrite Hx.
  - by rewrite Hb, IH.
Qed.

(** X10: what the updater raises on a document it has loaded: [TypeError]
    when the document is not a mapping, [KeyError] when the mapping has no
    [rules], and, on a list of rules, [KeyError] for a first unreadable rule
    that is a mapping without [name]. *)
Theorem update_failures (asns : list Z) (s : state) :
  (forall data, rules_file s = Yaml data -> (forall d, data <> PDict d) ->
   value_of (update_rules_yaml asns s) = inl TypeError) /\
  (forall d, rules_file s = Yaml (PDict d) -> d !! "rules" = None ->
   value_of (update_rules_yaml asns s) = inl KeyError) /\
  (forall d before rule after,
     rules_file s = Yaml (PDict d) ->
     d !! "rules" = Some (PList (before ++ PDict rule :: after)) ->
     Forall (fun r => exists b, asn_test r = inr b) before ->
     rule !! "name" = None ->
     value_of (update_rules_yaml asns s) = inl KeyError).
Proof.
  rewrite update_rules_yaml_steps. repeat split.
  - intros data -> Hdata. destruct data; try done. by destruct (Hdata d).
  - intros d -> Hrules. simpl. by rewrite Hrules.
  - intros d before rule after -> Hrules Hbefore Hname. simpl.
    rewrite Hrules. simpl.
    rewrite (filter_result_raises keep_test before after (PDict rule) KeyError).
    + done.
    + eapply Forall_impl; [exact Hbefore|]. intros r [b Hb].
      unfold keep_test. rewrite Hb. eauto.
    + unfold keep_test, asn_test. simpl. by rewrite Hname.
Qed.

Lemma update_failures_witness :
  value_of (update_rules_yaml [64512] (mkState 0 (Yaml sequence_document)))
  = inl TypeError /\
  value_of (update_rules_yaml [64512] (mkState 0 (Yaml headless_document)))
  = inl KeyError.
Proof.
  split.
  - refine (proj1 (update_failures [64512]
                     (mkState 0 (Yaml sequence_document)))
              sequence_document eq_refl _).
    discriminate.
  - refine (proj1 (proj2
              (update_failures [64512] (mkState 0 (Yaml headless_document))))
              {["version" := PInt 2]} eq_refl _).
    vm_compute. reflexivity.
Defined.

(** X11: the updater returns exactly on the documents that are a mapping
    with a [rules] entry that can be run through and in which every rule
    has a name in which "ASN" can be looked for. *)
Theorem update_returns_iff (asns : list Z) (s : state) :
  value_of (update_rules_yaml asns s) = inr tt <->
  exists d old rules,
    rules_file s = Yaml (PDict d) /\
    d !! "rules" = Some old /\
    py_iter old = inr rules /\
    Forall (fun rule => exists b, asn_test rule = inr b) rules.
Proof.
  split.
  - destruct (update_rules_yaml asns s) as [[v s'] t] eqn:Hrun.
    unfold value_of. simpl. intros ->.
    apply update_rules_yaml_returns in Hrun
      as (d & old & rules & kept & Hfile & Hold & Hiter & Hkept & _).
    exists d, old, rules. repeat split; try done.
    apply filter_result_returns in Hkept as [Hall _].
    eapply Forall_impl; [exact Hall|]. intros rule [b Hb].
    revert Hb. unfold keep_test. destruct (asn_test rule); [done|eauto].
  - intros (d & old & rules & Hfile & Hold & Hiter & Hall).
    assert (exists kept, filter_result keep_test rules = inr kept)
      as [kept Hkept].
    { eexists. apply filter_result_total.
      eapply Forall_impl; [exact Hall|]. intros rule [b Hb].
      unfold keep_test. rewrite Hb. eauto. }
    by rewrite (update_rules_yaml_run asns s d old rules kept).
Qed.

(** What a second run keeps of the rules a first run wrote. *)
Lemma kept_again (asns : list Z) (kept : list pyval) :
  Forall (fun rule => asn_test rule = inr false) kept ->
  filter_result keep_test (kept ++ appended_rules asns) = inr kept.
Proof.
  intros Hkept. rewrite filter_result_total.
  - rewrite List.filter_app, (filter_keep_kept _ Hkept).
    destruct asns; simpl; [by rewrite app_nil_r|].
    unfold keep_test at 1. rewrite rule_block_asn_test. simpl.
    by rewrite app_nil_r.
  - apply Forall_app. split.
    + eapply Forall_impl; [exact Hkept|]. intros rule Hrule.
      unfold keep_test. rewrite Hrule. eauto.
    + destruct asns; constructor; [|constructor].
      unfold keep_test. rewrite rule_block_asn_test. eauto.
Qed.

(** X12: the last run decides: after a run that returns, a run with another
    list (empty or not) returns and leaves the state a run with that list
    alone would have left. *)
Theorem update_last_run_decides
    (first second : list Z) (s s1 : state) (t1 : list event) :
  update_rules_yaml first s = (inr tt, s1, t1) ->
  update_rules_yaml second s1 = update_rules_yaml second s.
Proof.
  intros (d & old & rules & kept & Hfile & Hold & Hiter & Hkept & -> & _)
    %update_rules_yaml_returns.
  rewrite (update_rules_yaml_run second s d old rules kept) by done.
  apply kept_rules in Hkept as [_ Hkept].
  rewrite (update_rules_yaml_run second
             (mkState (calls s)
                (Yaml (PDict (<["rules" :=
                         PList (kept ++ appended_rules first)]> d))))
             _ _ _ kept eq_refl
             (lookup_insert_eq _ _ _) eq_refl (kept_again first kept Hkept)).
  simpl calls. by rewrite insert_insert_eq.
Qed.

Lemma update_last_run_decides_witness :
  update_rules_yaml []
    (state_of (update_rules_yaml [64512; 64513] sample_state)) =
  update_rules_yaml [] sample_state.
Proof.
  apply (update_last_run_decides [64512; 64513] [] sample_state _
           (trace_of (update_rules_yaml [64512; 64513] sample_state))).
  vm_compute. reflexivity.
Defined.

(** X13: on a document whose rules are a list without ASN rules, a run with
    the empty list changes nothing: it returns, prints its line and leaves
    the state, file included, as it was. *)
Theorem update_nothing_to_do
    (s : state) (d : gmap string pyval) (rules : list pyval) :
  rules_file s = Yaml (PDict d) ->
  d !! "rules" = Some (PList rules) ->
  Forall (fun rule => asn_test rule = inr false) rules ->
  update_rules_yaml [] s = (inr tt, s, [Print MNoAsnData]).
Proof.
  intros Hfile Hrules Hnone.
  assert (filter_result keep_test rules = inr rules) as Hkept.
  { pose proof (kept_again [] rules Hnone) as H. simpl in H.
    by rewrite app_nil_r in H. }
  rewrite (update_rules_yaml_run [] s d (PList rules) rules rules) by done.
  simpl. rewrite app_nil_r, (insert_id d "rules" (PList rules) Hrules).
  destruct s as [c f]. simpl in *. by rewrite Hfile.
Qed.

Lemma update_nothing_to_do_witness :
  update_rules_yaml [] (mkState 0 (Yaml plain_document)) =
    (inr tt, mkState 0 (Yaml plain_document), [Print MNoAsnData]).
Proof.
  refine (update_nothing_to_do (mkState 0 (Yaml plain_document)) _ _
            eq_refl _ _).
  - vm_compute. reflexivity.
  - repeat constructor.
Defined.

(** ** The script *)

Lemma requests_print (m : msg) (t : list event) :
  requests (Print m :: t) = requests t.
Proof. reflexivity. Qed.

(** The run of the script: the clean-up, then the fetcher, then the updater,
    each only when the one before returned. *)
Lemma main_run (key token : option string) (net : world) (s : state) :
  main key token net s =
  match cleanup_existing_rulesets token net s with
  | (inl e, s1, t1) => (inl e, s1, t1)
  | (inr _, s1, t1) =>
      match fetch_abuseipdb_asns key net s1 with
      | (inl e, s2, t2) => (inl e, s2, t1 ++ Print MFetching :: t2)
      | (inr asns, s2, t2) =>
          match update_rules_yaml asns s2 with
          | (inl e, s3, t3) =>
              (inl e, s3,
               t1 ++ Print MFetching :: t2 ++
               Print (MFetched (length asns)) :: t3)
          | (inr _, s3, t3) =>
              (inr tt, s3,
               t1 ++ Print MFetching :: t2 ++
               Print (MFetched (length asns)) :: t3 ++ [Print MUpdated])
          end
      end
  end.
Proof.
  unfold main. rewrite run_bind.
  destruct (cleanup_existing_rulesets token net s) as [[[e|[]] s1] t1];
    [done|].
  rewrite run_print_bind, run_bind.
  destruct (fetch_abuseipdb_asns key net s1) as [[[e|asns] s2] t2]; [done|].
  rewrite run_print_bind, run_bind.
  destruct (update_rules_yaml asns s2) as [[[e|[]] s3] t3]; [done|].
  reflexivity.
Qed.

(** The script up to the updater: the value the fetcher hands over and the
    rules file the updater finds. *)
Lemma main_before_update (key token : option string) (net : world)
    (s s1 s2 : state) (t1 t2 : list event) (v : result (list Z)) :
  cleanup_existing_rulesets token net s = (inr tt, s1, t1) ->
  fetch_abuseipdb_asns key net s1 = (v, s2, t2) ->
  v = inr get_known_bad_asns /\ rules_file s2 = rules_file s.
Proof.
  intros Hcleanup Hfetch. split.
  - pose proof (fetch_value key net s1) as Hv. rewrite Hfetch in Hv.
    unfold value_of in Hv. simpl in Hv. exact Hv.
  - destruct (fetch_asks key net s1) as (_ & Hf2 & _).
    destruct (cleanup_confined token net s) as [_ Hf1].
    rewrite Hfetch in Hf2. rewrite Hcleanup in Hf1.
    unfold state_of in *. simpl in *. congruence.
Qed.

(** X14: a run of the script that returns has rewritten the rules file: the
    rules that were not ASN rules are kept in their order, followed by one
    rule that blocks the 32 ASNs of the static catalogue; every other
    top-level entry is as before, and the last line printed is the one of
    line 260. *)
Theorem main_writes_catalogue_rule
    (key token : option string) (net : world) (s s' : state)
    (t : list event) :
  main key token net s = (inr tt, s', t) ->
  exists old rules,
    top_level (rules_file s) "rules" = Some old /\
    py_iter old = inr rules /\
    rules_of (rules_file s') =
      Some (List.filter (fun rule => negb (asn_named rule)) rules ++
            [rule_block get_known_bad_asns]) /\
    (forall k, k <> "rules" ->
       top_level (rules_file s') k = top_level (rules_file s) k) /\
    last t = Some (Print MUpdated).
Proof.
  rewrite main_run.
  destruct (cleanup_existing_rulesets token net s) as [[[e|[]] s1] t1]
    eqn:Hcleanup; [done|].
  destruct (fetch_abuseipdb_asns key net s1) as [[v s2] t2] eqn:Hfetch.
  destruct (main_before_update key token net s s1 s2 t1 t2 v Hcleanup Hfetch)
    as [-> Hfile].
  destruct (update_rules_yaml get_known_bad_asns s2) as [[[e|[]] s3] t3]
    eqn:Hupdate; [done|].
  intros [= <- <-].
  apply update_rules_yaml_returns in Hupdate
    as (d & old & rules & kept & Hfile2 & Hold & Hiter & Hkept & -> & _).
  apply kept_rules in Hkept as [-> _].
  exists old, rules. rewrite <- Hfile, Hfile2. simpl.
  rewrite lookup_insert_eq. repeat split; try done.
  - intros k Hk. by rewrite lookup_insert_ne.
  - rewrite !app_comm_cons, !app_assoc. apply last_snoc.
Qed.

Lemma main_writes_catalogue_rule_witness :
  rules_of (rules_file (state_of (main (Some "key") (Some "token")
                                   sample_net sample_state)))
  = Some [ sample_rule "Challenge bots" "managed_challenge" "(cf.client.bot)";
           rule_block get_known_bad_asns ].
Proof.
  destruct (main_writes_catalogue_rule (Some "key") (Some "token") sample_net
              sample_state
              (state_of (main (Some "key") (Some "token") sample_net
                           sample_state))
              (trace_of (main (Some "key") (Some "token") sample_net
                           sample_state)))
    as (old & rules & Hold & Hiter & Hrules & _); [vm_compute; reflexivity|].
  rewrite Hrules. vm_compute in Hold. injection Hold as <-.
  vm_compute in Hiter. injection Hiter as <-.
  vm_compute. reflexivity.
Defined.

(** X15: a run of the script in which the clean-up raises, or which finds a
    rules document the updater does not accept, raises and leaves the rules
    file as it was: both failures come before the file is opened for
    writing. *)
Theorem main_failure_leaves_file
    (key token : option string) (net : world) (s : state) :
  (exists e, value_of (cleanup_existing_rulesets token net s) = inl e) \/
  ~ accepted_document (rules_file s) ->
  (exists e, value_of (main key token net s) = inl e) /\
  rules_file (state_of (main key token net s)) = rules_file s.
Proof.
  intros Hcause. rewrite main_run.
  pose proof (cleanup_confined token net s) as [_ Hf1].
  destruct (cleanup_existing_rulesets token net s) as [[[e1|[]] s1] t1]
    eqn:Hcleanup.
  { split; [by exists e1|exact Hf1]. }
  destruct Hcause as [[e He]|Hnot]; [done|].
  destruct (fetch_abuseipdb_asns key net s1) as [[v s2] t2] eqn:Hfetch.
  destruct (main_before_update key token net s s1 s2 t1 t2 v Hcleanup Hfetch)
    as [-> Hfile].
  rewrite <- Hfile in Hnot.
  destruct (update_rejected get_known_bad_asns s2 Hnot) as [e ->].
  split; [by exists e|exact Hfile].
Qed.

Lemma main_failure_leaves_file_witness :
  rules_file (state_of (main (Some "key") (Some "token") unreachable_net
                          sample_state))
  = Yaml sample_document /\
  rules_file (state_of (main None None unreachable_net
                          (mkState 0 (Yaml headless_document))))
  = Yaml headless_document.
Proof.
  split.
  - apply (main_failure_leaves_file (Some "key") (Some "token")
             unreachable_net sample_state).
    left. exists RequestException. vm_compute. reflexivity.
  - apply (main_failure_leaves_file None None unreachable_net
             (mkState 0 (Yaml headless_document))).
    right. intros (d & old & rules & Hfile & Hold & _).
    simpl in Hfile. injection Hfile as <-. vm_compute in Hold. discriminate.
Defined.

(** X16: the order of the script: when the clean-up raises, the script ends
    there with the same exception, trace and state, without asking for the
    blacklist; when it returns, the requests of the script are those of the
    clean-up followed by the one of the fetcher if a key is configured. *)
Theorem main_runs_in_order
    (key token : option string) (net : world) (s : state) :
  let cleanup := cleanup_existing_rulesets token net s in
  (forall e, value_of cleanup = inl e ->
     main key token net s = (inl e, state_of cleanup, trace_of cleanup)) /\
  (value_of cleanup = inr tt ->
     requests (trace_of (main key token net s)) =
     requests (trace_of cleanup) ++
     (if truthy key then [GetBlacklist] else [])).
Proof.
  cbv zeta. rewrite main_run.
  destruct (cleanup_existing_rulesets token net s) as [[[e1|[]] s1] t1]
    eqn:Hcleanup; unfold value_of, state_of, trace_of; simpl.
  - split; [by intros e [= <-]|done].
  - split; [done|]. intros _.
    destruct (fetch_asks key net s1) as (Hr2 & _ & _).
    destruct (fetch_abuseipdb_asns key net s1) as [[v s2] t2] eqn:Hfetch.
    destruct (main_before_update key token net s s1 s2 t1 t2 v Hcleanup Hfetch)
      as [-> _].
    unfold trace_of in Hr2. simpl in Hr2.
    assert (forall s3, requests (trace_of (update_rules_yaml
                                             get_known_bad_asns s3)) = [])
      as Hr3.
    { intros s3. rewrite update_rules_yaml_steps.
      destruct (rules_file s3) as [| |e0|data]; try done.
      destruct (py_getitem data "rules") as [e'|old]; [done|].
      destruct (py_iter old) as [e'|rules]; [done|].
      destruct (filter_result keep_test rules) as [e'|kept]; [done|].
      by destruct data. }
    specialize (Hr3 s2).
    destruct (update_rules_yaml get_known_bad_asns s2) as [[[e3|[]] s3] t3];
      unfold trace_of in *; simpl in *;
      repeat (rewrite ?requests_app, ?requests_print);
      rewrite Hr2, Hr3; simpl; by rewrite ?app_nil_r.
Qed.

Lemma main_runs_in_order_witness :
  main (Some "key") (Some "token") unreachable_net sample_state =
    (inl RequestException,
     state_of (cleanup_existing_rulesets (Some "token") unreachable_net
                 sample_state),
     trace_of (cleanup_existing_rulesets (Some "token") unreachable_net
                 sample_state)) /\
  requests (trace_of (main (Some "key") (Some "token") sample_net
                        sample_state)) =
  requests (trace_of (cleanup_existing_rulesets (Some "token") sample_net
                        sample_state)) ++ [GetBlacklist].
Proof.
  split.
  - apply (proj1 (main_runs_in_order (Some "key") (Some "token")
                    unreachable_net sample_state)).
    vm_compute. reflexivity.
  - apply (proj2 (main_runs_in_order (Some "key") (Some "token")
                    sample_net sample_state)).
    vm_compute. reflexivity.
Defined.

(** X17: with neither credential configured the script makes no request at
    all: it prints that it skips the clean-up and that it uses the static
    list, and then does what the updater does with the static catalogue. *)
Theorem main_without_credentials
    (key token : option string) (net : world) (s : state) :
  truthy key = false -> truthy token = false ->
  let run := main key token net s in
  let update := update_rules_yaml get_known_bad_asns s in
  requests (trace_of run) = [] /\
  value_of run = value_of update /\
  state_of run = state_of update /\
  trace_of run =
    [Print MSkipCleanup; Print MFetching; Print MNoKey; Print (MFetched 32)]
    ++ trace_of update ++
    match value_of update with
    | inr _ => [Print MUpdated]
    | inl _ => []
    end.
Proof.
  intros Hkey Htoken. cbv zeta.
  assert (requests (trace_of (update_rules_yaml get_known_bad_asns s)) = [])
    as Hquiet.
  { rewrite update_rules_yaml_steps.
    destruct (rules_file s) as [| |e0|data]; try done.
    destruct (py_getitem data "rules") as [e'|old]; [done|].
    destruct (py_iter old) as [e'|rules]; [done|].
    destruct (filter_result keep_test rules) as [e'|kept]; [done|].
    by destruct data. }
  rewrite main_run. unfold cleanup_existing_rulesets.
  rewrite Htoken. unfold negb.
  change (print MSkipCleanup s) with
    (inr tt : result unit, s, [Print MSkipCleanup]).
  cbv beta iota.
  unfold fetch_abuseipdb_asns. rewrite Hkey. unfold negb.
  rewrite !run_print_bind. unfold mret, M_ret, ret.
  cbv beta iota.
  change (take MAX_ASNS get_known_bad_asns) with get_known_bad_asns.
  destruct (update_rules_yaml get_known_bad_asns s) as [[[e|[]] s3] t3];
    unfold value_of, state_of, trace_of in *; simpl in *.
  - by rewrite Hquiet, app_nil_r.
  - by rewrite requests_app, Hquiet.
Qed.

Lemma main_without_credentials_witness :
  requests (trace_of (main None (Some EmptyString) unreachable_net sample_state))
  = [] /\
  state_of (main None (Some EmptyString) unreachable_net sample_state) =
  state_of (update_rules_yaml get_known_bad_asns sample_state).
Proof.
  destruct (main_without_credentials None (Some EmptyString) unreachable_net
              sample_state eq_refl eq_refl) as (Hrequests & _ & Hstate & _).
  exact (conj Hrequests Hstate).
Defined.

(** ** The failures of the fetcher *)

Lemma fetch_handler_run (e : exn) (s : state) :
  fetch_handler e s =
    (inr (take MAX_ASNS get_known_bad_asns), s,
     [Print (failure_line e); Print MFallback]).
Proof. by destruct e. Qed.

(** X18: what the fetcher prints when the call fails.  A request that raises
    is reported as a network error when the exception is a
    [RequestException] and as an unexpected error otherwise; a status other
    than 200, 429 and 401 is reported with the first 200 characters of the
    body; a 200 whose body is not JSON, or whose [data] is [null], is
    reported as the exception it causes.  Each of these runs ends with the
    fall-back line. *)
Theorem fetch_reports_failures
    (key : option string) (net : world) (s : state) :
  truthy key = true ->
  let run := fetch_abuseipdb_asns key net s in
  let out := net (calls s) GetBlacklist in
  (forall e, out = Failed e ->
     trace_of run =
       [Print MAttempt; Http GetBlacklist out;
        Print (failure_line e); Print MFallback]) /\
  (forall r, out = Responded r ->
     status_code r <> 200 -> status_code r <> 429 -> status_code r <> 401 ->
     trace_of run =
       [Print MAttempt; Http GetBlacklist out;
        Print (MApiError (status_code r));
        Print (MResponseText (substring 0 200 (text r)));
        Print MFallback]) /\
  (forall r e, out = Responded r -> status_code r = 200 -> json r = inl e ->
     trace_of run =
       [Print MAttempt; Http GetBlacklist out; Print MCallOk;
        Print (failure_line e); Print MFallback]) /\
  (forall r d, out = Responded r -> status_code r = 200 ->
     json r = inr (PDict d) -> d !! "data" = Some PNone ->
     trace_of run =
       [Print MAttempt; Http GetBlacklist out; Print MCallOk;
        Print (MUnexpected TypeError); Print MFallback]).
Proof.
  intros Hkey. cbv zeta.
  unfold fetch_abuseipdb_asns. rewrite Hkey. unfold negb, try_except.
  unfold fetch_body. rewrite !run_print_bind, !run_bind. unfold http.
  repeat split.
  - intros e ->. cbv beta iota zeta. rewrite fetch_handler_run. reflexivity.
  - intros r -> H200 H429 H401. cbv beta iota zeta.
    apply Z.eqb_neq in H200, H429, H401. rewrite H200, H429, H401.
    reflexivity.
  - intros r e -> H200 Hjson. cbv beta iota zeta. rewrite H200.
    change (200 =? 200) with true. cbv iota.
    rewrite run_print_bind, run_lift_bind, Hjson, fetch_handler_run.
    reflexivity.
  - intros r d -> H200 Hjson Hdata. cbv beta iota zeta. rewrite H200.
    change (200 =? 200) with true. cbv iota.
    rewrite run_print_bind, run_lift_bind, Hjson.
    rewrite run_lift_bind. simpl py_contains. rewrite Hdata.
    rewrite bool_decide_eq_true_2 by eauto.
    rewrite run_bind, run_lift_bind. simpl py_getitem. rewrite Hdata.
    rewrite run_lift_bind. simpl py_len. cbv beta iota.
    rewrite fetch_handler_run. reflexivity.
Qed.

Lemma fetch_reports_failures_witness :
  trace_of (fetch_abuseipdb_asns (Some "key") unreachable_net fresh) =
    [Print MAttempt; Http GetBlacklist (Failed RequestException);
     Print (MNetworkError RequestException); Print MFallback].
Proof.
  exact (proj1 (fetch_reports_failures (Some "key") unreachable_net fresh
                  eq_refl) RequestException eq_refl).
Defined.

(** ** The keyword test *)

Lemma lower_app (s1 s2 : string) : lower (s1 +:+ s2) = lower s1 +:+ lower s2.
Proof.
  induction s1 as [|c s1 IH]; [done|].
  rewrite append_cons. simpl. by rewrite IH, append_cons.
Qed.

Lemma lower_split (s front back : string) :
  lower s = front +:+ back ->
  exists front' back',
    s = front' +:+ back' /\ lower front' = front /\ lower back' = back.
Proof.
  revert s. induction front as [|c front IH]; intros s Hs.
  - by exists EmptyString, s.
  - destruct s as [|c' s]; [done|]. rewrite append_cons in Hs.
    simpl in Hs. injection Hs as Hc Hs.
    destruct (IH s Hs) as (front' & back' & -> & Hfront & Hback).
    exists (String c' front'), back'. rewrite append_cons. simpl.
    by rewrite Hc, Hfront.
Qed.

(** X19: the keyword test of line 246 ignores case: a ruleset with a string
    name passes it exactly when some part of the name, put in lower case, is
    "terraform", "waf" or "managed". *)
Theorem keyword_test_ignores_case (d : gmap string pyval) (name : string) :
  d !! "name" = Some (PStr name) ->
  keyword_named (PDict d) = true <->
  exists front spelled back,
    name = front +:+ spelled +:+ back /\
    In (lower spelled) ["terraform"; "waf"; "managed"].
Proof.
  intros Hname. unfold keyword_named, py_getitem. rewrite Hname.
  unfold py_lower, managed_keywords. rewrite existsb_exists. split.
  - intros (keyword & Hin & (front & back & Hlower)%contains_iff).
    apply lower_split in Hlower as (front' & rest & -> & _ & Hrest).
    apply lower_split in Hrest as (spelled & back' & -> & Hspelled & _).
    exists front', spelled, back'. by rewrite Hspelled.
  - intros (front & spelled & back & -> & Hin).
    exists (lower spelled). split; [exact Hin|].
    apply contains_iff. exists (lower front), (lower back).
    by rewrite !lower_app.
Qed.

Lemma keyword_test_ignores_case_witness :
  keyword_named (sample_ruleset "c3" "Edge WaF rules"
                   "http_request_firewall_custom" "zone") = true.
Proof.
  refine (proj2 (keyword_test_ignores_case _ "Edge WaF rules" _) _).
  - vm_compute. reflexivity.
  - exists "Edge ", "WaF", " rules". split; [reflexivity|].
    right. left. reflexivity.
Defined.
